(** * Model-provider selectors of the global store

    A shallow embedding of
    [src/store/global/slices/settings/selectors/modelProvider.ts]
    and the properties its specification states about it.

    JavaScript values are modelled by their TypeScript types: an optional
    property [x?: T] is an [option T] ([None] is [undefined]), an array is a
    [list], an object used as a dictionary keyed by provider id is a
    [gmap string _], and a number is a [Z]. *)

From Stdlib Require Import ZArith List Bool String.
From stdpp Require Import base option strings gmap.
Import ListNotations.

Local Open Scope string_scope.
Local Open Scope Z_scope.

(** ** JavaScript operators used by the selectors *)

Module JS.

(** [a ?? b] where [b] may itself be [undefined]. *)
Definition nullishOpt {A : Type} (a b : option A) : option A :=
  match a with
  | Some _ => a
  | None => b
  end.

(** [a ?? b] where [b] is always defined. *)
Definition nullish {A : Type} (a : option A) (b : A) : A :=
  match a with
  | Some v => v
  | None => b
  end.

(** [o?.f] for an optional property [f]. *)
Definition optChain {A B : Type} (o : option A) (f : A -> option B) : option B :=
  match o with
  | Some v => f v
  | None => None
  end.

(** [o?.f] for a required property [f]. *)
Definition optGet {A B : Type} (o : option A) (f : A -> B) : option B :=
  match o with
  | Some v => Some (f v)
  | None => None
  end.

(** Truthiness of a [boolean | undefined]. *)
Definition truthy (o : option bool) : bool :=
  match o with
  | Some true => true
  | _ => false
  end.

(** [a || b] for [a : boolean | undefined] and [b : boolean]. *)
Definition orBool (a : option bool) (b : bool) : bool :=
  if truthy a then true else b.

(** [a || b] for [a : boolean] and [b : boolean | undefined]. *)
Definition orOpt (a : bool) (b : option bool) : option bool :=
  if a then Some true else b.

(** [a || b] for [a : T[] | undefined] and an array [b]: an array, even
    an empty one, is truthy. *)
Definition orArray {A : Type} (a : option (list A)) (b : list A) : list A :=
  match a with
  | Some l => l
  | None => b
  end.

(** [n || 0] for [n : number | undefined]: [0] is falsy. *)
Definition orZero (n : option Z) : Z :=
  match n with
  | Some v => if v =? 0 then 0 else v
  | None => 0
  end.

(** [typeof x !== 'undefined']. *)
Definition isDefined {A : Type} (x : option A) : bool :=
  match x with
  | Some _ => true
  | None => false
  end.

(** [Boolean(str)]: only the empty string is falsy. *)
Definition truthyString (str : string) : bool :=
  match str with
  | EmptyString => false
  | String _ _ => true
  end.

(** [s.includes(searchString)]: [searchString] occurs at some position
    of [s]. *)
Fixpoint includes (s searchString : string) : bool :=
  if String.prefix searchString s then true
  else match s with
       | EmptyString => false
       | String _ rest => includes rest searchString
       end.

(** [a === b] on strings. *)
Definition strictEq (a b : string) : bool := String.eqb a b.

End JS.

(** ** lodash [uniqBy]

    [uniqBy(array, iteratee)] keeps, in order, the first element for each
    value of the iteratee and drops the later ones.  As in lodash's
    [baseUniq], [seen] collects the iteratee values already emitted. *)

Section UniqBy.
Context {A : Type}.
Variable iteratee : A -> string.

Fixpoint baseUniq (seen : list string) (array : list A) : list A :=
  match array with
  | [] => []
  | value :: rest =>
      let computed := iteratee value in
      if existsb (JS.strictEq computed) seen
      then baseUniq seen rest
      else value :: baseUniq (computed :: seen) rest
  end.

Definition uniqBy (array : list A) : list A := baseUniq [] array.
End UniqBy.

(** ** Data model

    Modelled from the spec: the type declarations of [@/types/llm],
    [@/types/serverConfig] and [@/types/settings] are not part of the
    selector file.  A model card is the metadata of one model (its
    capabilities: vision, function calling, files, token limit), a provider
    card names a provider and lists its model cards.  The records carry the
    properties the selectors read or write; [displayName] and [name] stand
    for the descriptive metadata that object spread copies along unchanged. *)

Module ChatModelCard.
Record t : Type := mk {
  id : string;
  displayName : option string;
  enabled : option bool;
  files : option bool;
  functionCall : option bool;
  isCustom : option bool;
  tokens : option Z;
  vision : option bool;
}.

(** [{ ...model, isCustom: v }] *)
Definition withIsCustom (model : t) (v : bool) : t :=
  {| id := id model; displayName := displayName model;
     enabled := enabled model; files := files model;
     functionCall := functionCall model; isCustom := Some v;
     tokens := tokens model; vision := vision model |}.

(** [{ ...model, enabled: v }] *)
Definition withEnabled (model : t) (v : bool) : t :=
  {| id := id model; displayName := displayName model;
     enabled := Some v; files := files model;
     functionCall := functionCall model; isCustom := isCustom model;
     tokens := tokens model; vision := vision model |}.
End ChatModelCard.

Module ModelProviderCard.
Record t : Type := mk {
  id : string;
  name : option string;
  chatModels : list ChatModelCard.t;
  enabled : option bool;
}.

(** [{ ...card, chatModels: models }] *)
Definition withChatModels (card : t) (models : list ChatModelCard.t) : t :=
  {| id := id card; name := name card;
     chatModels := models; enabled := enabled card |}.

(** [{ ...card, chatModels: models, enabled: v }] *)
Definition withChatModelsEnabled
    (card : t) (models : list ChatModelCard.t) (v : bool) : t :=
  {| id := id card; name := name card;
     chatModels := models; enabled := Some v |}.
End ModelProviderCard.

Module ServerModelProviderConfig.
Record t : Type := mk {
  serverModelCards : option (list ChatModelCard.t);
}.
End ServerModelProviderConfig.

Module GlobalServerConfig.
Record t : Type := mk {
  languageModel : option (gmap string ServerModelProviderConfig.t);
}.
End GlobalServerConfig.

Module GeneralModelProviderConfig.
Record t : Type := mk {
  customModelCards : option (list ChatModelCard.t);
  enabled : option bool;
  enabledModels : option (list string);
  remoteModelCards : option (list ChatModelCard.t);
}.
End GeneralModelProviderConfig.

Module GlobalSettings.
Record t : Type := mk {
  languageModel : option (gmap string GeneralModelProviderConfig.t);
}.
End GlobalSettings.

(** The built-in provider cards exported by [@/config/modelProviders].
    Their contents are not part of the selector file, so the selectors are
    parameterised by them. *)
Record ModelProviders : Type := {
  AnthropicProviderCard : ModelProviderCard.t;
  AzureProviderCard : ModelProviderCard.t;
  BedrockProviderCard : ModelProviderCard.t;
  GoogleProviderCard : ModelProviderCard.t;
  GroqProviderCard : ModelProviderCard.t;
  MistralProviderCard : ModelProviderCard.t;
  MoonshotProviderCard : ModelProviderCard.t;
  OllamaProviderCard : ModelProviderCard.t;
  OpenAIProviderCard : ModelProviderCard.t;
  OpenRouterProviderCard : ModelProviderCard.t;
  PerplexityProviderCard : ModelProviderCard.t;
  TogetherAIProviderCard : ModelProviderCard.t;
  ZeroOneProviderCard : ModelProviderCard.t;
  ZhiPuProviderCard : ModelProviderCard.t;
}.

(** What the selectors read from a [GlobalStore]: the [serverConfig]
    property, and the two selectors imported from [./settings]. *)
Class Store (GlobalStore : Type) : Type := {
  serverConfig : GlobalStore -> GlobalServerConfig.t;
  currentSettings : GlobalStore -> GlobalSettings.t;
  getProviderConfigById :
    string -> GlobalStore -> option GeneralModelProviderConfig.t;
}.

(** ** The selectors *)

Section Selectors.
Context {GlobalStore : Type} `{Store GlobalStore}.
Variable MP : ModelProviders.
(** [filterEnabledModels], also imported from [@/config/modelProviders]. *)
Variable filterEnabledModels : ModelProviderCard.t -> list string.

Definition serverProviderModelCards
    (provider : string) (s : GlobalStore) : option (list ChatModelCard.t) :=
  let config :=
    JS.optChain (GlobalServerConfig.languageModel (serverConfig s))
                (fun m => m !! provider) in
  match config with
  | None => None
  | Some config => ServerModelProviderConfig.serverModelCards config
  end.

Definition remoteProviderModelCards
    (provider : string) (s : GlobalStore) : option (list ChatModelCard.t) :=
  let cards :=
    JS.optChain
      (JS.optChain (GlobalSettings.languageModel (currentSettings s))
                   (fun m => m !! provider))
      GeneralModelProviderConfig.remoteModelCards in
  match cards with
  | None => None
  | Some cards => Some cards
  end.

Definition isProviderEnabled (provider : string) (s : GlobalStore) : bool :=
  JS.orBool
    (JS.optChain (getProviderConfigById provider s)
                 GeneralModelProviderConfig.enabled)
    false.

Definition mergeModels (s : GlobalStore)
    (provider : string) (defaultChatModels : list ChatModelCard.t)
    : list ChatModelCard.t :=
  let serverChatModels := serverProviderModelCards provider s in
  let remoteChatModels := remoteProviderModelCards provider s in
  JS.nullish (JS.nullishOpt serverChatModels remoteChatModels)
             defaultChatModels.

Definition defaultModelProviderList (s : GlobalStore)
    : list ModelProviderCard.t :=
  [ ModelProviderCard.withChatModels (OpenAIProviderCard MP)
      (mergeModels s "openai"
         (ModelProviderCard.chatModels (OpenAIProviderCard MP)));
    ModelProviderCard.withChatModels (AzureProviderCard MP)
      (mergeModels s "azure" []);
    ModelProviderCard.withChatModels (OllamaProviderCard MP)
      (mergeModels s "ollama"
         (ModelProviderCard.chatModels (OllamaProviderCard MP)));
    AnthropicProviderCard MP;
    GoogleProviderCard MP;
    ModelProviderCard.withChatModels (OpenRouterProviderCard MP)
      (mergeModels s "openrouter"
         (ModelProviderCard.chatModels (OpenRouterProviderCard MP)));
    ModelProviderCard.withChatModels (TogetherAIProviderCard MP)
      (mergeModels s "togetherai"
         (ModelProviderCard.chatModels (TogetherAIProviderCard MP)));
    BedrockProviderCard MP;
    PerplexityProviderCard MP;
    MistralProviderCard MP;
    GroqProviderCard MP;
    MoonshotProviderCard MP;
    ZeroOneProviderCard MP;
    ZhiPuProviderCard MP ].

Definition getDefaultModeProviderById
    (provider : string) (s : GlobalStore) : option ModelProviderCard.t :=
  List.find (fun s => JS.strictEq (ModelProviderCard.id s) provider)
            (defaultModelProviderList s).

Definition getDefaultEnabledModelsById
    (provider : string) (s : GlobalStore) : option (list string) :=
  let modelProvider := getDefaultModeProviderById provider s in
  match modelProvider with
  | Some modelProvider => Some (filterEnabledModels modelProvider)
  | None => None
  end.

Definition getDefaultModelCardById
    (id : string) (s : GlobalStore) : option ChatModelCard.t :=
  let list := defaultModelProviderList s in
  List.find (fun m => JS.strictEq (ChatModelCard.id m) id)
            (List.flat_map ModelProviderCard.chatModels list).

(** The two local constants of [getModelCardsById]. *)
Definition builtinCards
    (provider : string) (s : GlobalStore) : list ChatModelCard.t :=
  JS.orArray
    (JS.optGet (getDefaultModeProviderById provider s)
               ModelProviderCard.chatModels)
    [].

Definition userCards
    (provider : string) (s : GlobalStore) : list ChatModelCard.t :=
  List.map (fun model => ChatModelCard.withIsCustom model true)
    (JS.orArray
       (JS.optChain (getProviderConfigById provider s)
                    GeneralModelProviderConfig.customModelCards)
       []).

Definition getModelCardsById
    (provider : string) (s : GlobalStore) : list ChatModelCard.t :=
  uniqBy ChatModelCard.id (userCards provider s ++ builtinCards provider s).

Definition getEnableModelsById
    (provider : string) (s : GlobalStore) : option (list string) :=
  match JS.optChain (getProviderConfigById provider s)
                    GeneralModelProviderConfig.enabledModels with
  | None => None
  | Some _ =>
      JS.optGet
        (JS.optChain (getProviderConfigById provider s)
                     GeneralModelProviderConfig.enabledModels)
        (List.filter JS.truthyString)
  end.

Definition modelProviderList (s : GlobalStore) : list ModelProviderCard.t :=
  List.map
    (fun list =>
       ModelProviderCard.withChatModelsEnabled list
         (List.map
            (fun model =>
               let models := getEnableModelsById (ModelProviderCard.id list) s in
               match models with
               | None => model
               | Some models =>
                   ChatModelCard.withEnabled model
                     (existsb (fun m => JS.strictEq m (ChatModelCard.id model))
                              models)
               end)
            (getModelCardsById (ModelProviderCard.id list) s))
         (isProviderEnabled (ModelProviderCard.id list) s))
    (defaultModelProviderList s).

Definition modelProviderListForModelSelect
    (s : GlobalStore) : list ModelProviderCard.t :=
  List.map
    (fun provider =>
       ModelProviderCard.withChatModels provider
         (List.filter (fun model => JS.truthy (ChatModelCard.enabled model))
                      (ModelProviderCard.chatModels provider)))
    (List.filter (fun s => JS.truthy (ModelProviderCard.enabled s))
                 (modelProviderList s)).

Definition getModelCardById
    (id : string) (s : GlobalStore) : option ChatModelCard.t :=
  let list := modelProviderList s in
  List.find (fun m => JS.strictEq (ChatModelCard.id m) id)
            (List.flat_map ModelProviderCard.chatModels list).

Definition isModelEnabledFunctionCall (id : string) (s : GlobalStore) : bool :=
  JS.orBool (JS.optChain (getModelCardById id s) ChatModelCard.functionCall)
            false.

Definition isModelEnabledVision (id : string) (s : GlobalStore) : bool :=
  JS.orBool (JS.optChain (getModelCardById id s) ChatModelCard.vision)
            (JS.includes id "vision").

Definition isModelEnabledFiles
    (id : string) (s : GlobalStore) : option bool :=
  JS.optChain (getModelCardById id s) ChatModelCard.files.

Definition isModelEnabledUpload
    (id : string) (s : GlobalStore) : option bool :=
  JS.orOpt (isModelEnabledVision id s) (isModelEnabledFiles id s).

Definition isModelHasMaxToken (id : string) (s : GlobalStore) : bool :=
  JS.isDefined (JS.optChain (getModelCardById id s) ChatModelCard.tokens).

Definition modelMaxToken (id : string) (s : GlobalStore) : Z :=
  JS.orZero (JS.optChain (getModelCardById id s) ChatModelCard.tokens).

End Selectors.

(** ** The selectors as state-passing, fallible computations

    The same source read once more with its effects made explicit: a
    computation takes the store it is called on and hands back the store it
    leaves behind, together with either the value it returns or the exception
    it throws.  The functions the file imports are arbitrary computations of
    that kind. *)

Inductive Completion (A : Type) : Type :=
| Normal (value : A)
| Throw (error : string).
Arguments Normal {A} value.
Arguments Throw {A} error.

Definition Eff (S A : Type) : Type := S -> S * Completion A.

Module Eff.
Section Ops.
Context {S : Type}.

Definition ret {A : Type} (a : A) : Eff S A := fun s => (s, Normal a).

Definition throw {A : Type} (e : string) : Eff S A := fun s => (s, Throw e).

Definition bind {A B : Type} (m : Eff S A) (k : A -> Eff S B) : Eff S B :=
  fun s =>
    match m s with
    | (s', Normal a) => k a s'
    | (s', Throw e) => (s', Throw e)
    end.

(** Reading a property of the store object. *)
Definition gets {A : Type} (f : S -> A) : Eff S A := fun s => (s, Normal (f s)).

(** [o.f] on a value that may be [undefined]: a [TypeError] when it is. *)
Definition member {A B : Type} (o : option A) (f : A -> B) : Eff S B :=
  match o with
  | Some v => ret (f v)
  | None => throw "TypeError"
  end.

(** [array.map(callback)] for a callback that runs a computation. *)
Fixpoint mapM {A B : Type} (f : A -> Eff S B) (l : list A) : Eff S (list B) :=
  match l with
  | [] => ret []
  | x :: rest =>
      bind (f x) (fun y => bind (mapM f rest) (fun ys => ret (y :: ys)))
  end.
End Ops.
End Eff.

Notation "x <- m ;; k" := (Eff.bind m (fun x => k))
  (at level 100, m at next level, right associativity, only parsing).

(** The imported functions, as computations on the store. *)
Class Collaborators (GlobalStore : Type) : Type := {
  readServerConfig : GlobalStore -> GlobalServerConfig.t;
  runCurrentSettings : Eff GlobalStore GlobalSettings.t;
  runGetProviderConfigById :
    string -> Eff GlobalStore (option GeneralModelProviderConfig.t);
  runFilterEnabledModels :
    ModelProviderCard.t -> Eff GlobalStore (list string);
}.

Module Effectful.
Section Selectors.
Context {GlobalStore : Type} `{Collaborators GlobalStore}.
Variable MP : ModelProviders.

Definition serverProviderModelCards (provider : string)
    : Eff GlobalStore (option (list ChatModelCard.t)) :=
  serverConfig <- Eff.gets readServerConfig ;;
  let config :=
    JS.optChain (GlobalServerConfig.languageModel serverConfig)
                (fun m => m !! provider) in
  if negb (JS.isDefined config) then Eff.ret None
  else Eff.member config ServerModelProviderConfig.serverModelCards.

Definition remoteProviderModelCards (provider : string)
    : Eff GlobalStore (option (list ChatModelCard.t)) :=
  settings <- runCurrentSettings ;;
  let cards :=
    JS.optChain
      (JS.optChain (GlobalSettings.languageModel settings)
                   (fun m => m !! provider))
      GeneralModelProviderConfig.remoteModelCards in
  if negb (JS.isDefined cards) then Eff.ret None
  else Eff.ret cards.

Definition isProviderEnabled (provider : string) : Eff GlobalStore bool :=
  config <- runGetProviderConfigById provider ;;
  Eff.ret (JS.orBool
             (JS.optChain config GeneralModelProviderConfig.enabled) false).

Definition mergeModels
    (provider : string) (defaultChatModels : list ChatModelCard.t)
    : Eff GlobalStore (list ChatModelCard.t) :=
  serverChatModels <- serverProviderModelCards provider ;;
  remoteChatModels <- remoteProviderModelCards provider ;;
  Eff.ret (JS.nullish (JS.nullishOpt serverChatModels remoteChatModels)
                      defaultChatModels).

Definition defaultModelProviderList
    : Eff GlobalStore (list ModelProviderCard.t) :=
  openai <- mergeModels "openai"
              (ModelProviderCard.chatModels (OpenAIProviderCard MP)) ;;
  azure <- mergeModels "azure" [] ;;
  ollama <- mergeModels "ollama"
              (ModelProviderCard.chatModels (OllamaProviderCard MP)) ;;
  openrouter <- mergeModels "openrouter"
              (ModelProviderCard.chatModels (OpenRouterProviderCard MP)) ;;
  togetherai <- mergeModels "togetherai"
              (ModelProviderCard.chatModels (TogetherAIProviderCard MP)) ;;
  Eff.ret
    [ ModelProviderCard.withChatModels (OpenAIProviderCard MP) openai;
      ModelProviderCard.withChatModels (AzureProviderCard MP) azure;
      ModelProviderCard.withChatModels (OllamaProviderCard MP) ollama;
      AnthropicProviderCard MP;
      GoogleProviderCard MP;
      ModelProviderCard.withChatModels (OpenRouterProviderCard MP) openrouter;
      ModelProviderCard.withChatModels (TogetherAIProviderCard MP) togetherai;
      BedrockProviderCard MP;
      PerplexityProviderCard MP;
      MistralProviderCard MP;
      GroqProviderCard MP;
      MoonshotProviderCard MP;
      ZeroOneProviderCard MP;
      ZhiPuProviderCard MP ].

Definition getDefaultModeProviderById (provider : string)
    : Eff GlobalStore (option ModelProviderCard.t) :=
  list <- defaultModelProviderList ;;
  Eff.ret (List.find (fun s => JS.strictEq (ModelProviderCard.id s) provider)
                     list).

Definition getDefaultEnabledModelsById (provider : string)
    : Eff GlobalStore (option (list string)) :=
  modelProvider <- getDefaultModeProviderById provider ;;
  match modelProvider with
  | Some modelProvider =>
      models <- runFilterEnabledModels modelProvider ;;
      Eff.ret (Some models)
  | None => Eff.ret None
  end.

Definition getDefaultModelCardById (id : string)
    : Eff GlobalStore (option ChatModelCard.t) :=
  list <- defaultModelProviderList ;;
  Eff.ret (List.find (fun m => JS.strictEq (ChatModelCard.id m) id)
                     (List.flat_map ModelProviderCard.chatModels list)).

Definition getModelCardsById (provider : string)
    : Eff GlobalStore (list ChatModelCard.t) :=
  modelProvider <- getDefaultModeProviderById provider ;;
  let builtinCards :=
    JS.orArray (JS.optGet modelProvider ModelProviderCard.chatModels) [] in
  config <- runGetProviderConfigById provider ;;
  let userCards :=
    List.map (fun model => ChatModelCard.withIsCustom model true)
      (JS.orArray
         (JS.optChain config GeneralModelProviderConfig.customModelCards)
         []) in
  Eff.ret (uniqBy ChatModelCard.id (userCards ++ builtinCards)).

Definition getEnableModelsById (provider : string)
    : Eff GlobalStore (option (list string)) :=
  config <- runGetProviderConfigById provider ;;
  if negb (JS.isDefined
             (JS.optChain config GeneralModelProviderConfig.enabledModels))
  then Eff.ret None
  else
    config <- runGetProviderConfigById provider ;;
    Eff.ret (JS.optGet
               (JS.optChain config GeneralModelProviderConfig.enabledModels)
               (List.filter JS.truthyString)).

Definition modelProviderList : Eff GlobalStore (list ModelProviderCard.t) :=
  providers <- defaultModelProviderList ;;
  Eff.mapM
    (fun list =>
       cards <- getModelCardsById (ModelProviderCard.id list) ;;
       chatModels <-
         Eff.mapM
           (fun model =>
              models <- getEnableModelsById (ModelProviderCard.id list) ;;
              match models with
              | None => Eff.ret model
              | Some models =>
                  Eff.ret
                    (ChatModelCard.withEnabled model
                       (existsb
                          (fun m => JS.strictEq m (ChatModelCard.id model))
                          models))
              end)
           cards ;;
       enabled <- isProviderEnabled (ModelProviderCard.id list) ;;
       Eff.ret (ModelProviderCard.withChatModelsEnabled list chatModels enabled))
    providers.

Definition modelProviderListForModelSelect
    : Eff GlobalStore (list ModelProviderCard.t) :=
  providers <- modelProviderList ;;
  Eff.ret
    (List.map
       (fun provider =>
          ModelProviderCard.withChatModels provider
            (List.filter
               (fun model => JS.truthy (ChatModelCard.enabled model))
               (ModelProviderCard.chatModels provider)))
       (List.filter (fun s => JS.truthy (ModelProviderCard.enabled s))
                    providers)).

Definition getModelCardById (id : string)
    : Eff GlobalStore (option ChatModelCard.t) :=
  list <- modelProviderList ;;
  Eff.ret (List.find (fun m => JS.strictEq (ChatModelCard.id m) id)
                     (List.flat_map ModelProviderCard.chatModels list)).

Definition isModelEnabledFunctionCall (id : string) : Eff GlobalStore bool :=
  card <- getModelCardById id ;;
  Eff.ret (JS.orBool (JS.optChain card ChatModelCard.functionCall) false).

Definition isModelEnabledVision (id : string) : Eff GlobalStore bool :=
  card <- getModelCardById id ;;
  if JS.truthy (JS.optChain card ChatModelCard.vision) then Eff.ret true
  else Eff.ret (JS.includes id "vision").

Definition isModelEnabledFiles (id : string)
    : Eff GlobalStore (option bool) :=
  card <- getModelCardById id ;;
  Eff.ret (JS.optChain card ChatModelCard.files).

Definition isModelEnabledUpload (id : string)
    : Eff GlobalStore (option bool) :=
  vision <- isModelEnabledVision id ;;
  if vision then Eff.ret (Some true)
  else isModelEnabledFiles id.

Definition isModelHasMaxToken (id : string) : Eff GlobalStore bool :=
  card <- getModelCardById id ;;
  Eff.ret (JS.isDefined (JS.optChain card ChatModelCard.tokens)).

Definition modelMaxToken (id : string) : Eff GlobalStore Z :=
  card <- getModelCardById id ;;
  Eff.ret (JS.orZero (JS.optChain card ChatModelCard.tokens)).

End Selectors.
End Effectful.

(** ** A concrete store and catalogue

    [SampleStore] is a store holding a server config, the already merged
    settings and [sampleOther], which stands for the slices of the store the
    selectors never look at; its [getProviderConfigById] looks the provider
    up in the settings' [languageModel] dictionary.  [sampleProviders] is a
    small catalogue whose provider ids are the keys the selectors use. *)

Module Sample.

Record SampleStore : Type := {
  sampleServerConfig : GlobalServerConfig.t;
  sampleSettings : GlobalSettings.t;
  sampleOther : nat;
}.

#[global] Instance sampleStore : Store SampleStore := {|
  serverConfig := sampleServerConfig;
  currentSettings := sampleSettings;
  getProviderConfigById provider s :=
    JS.optChain (GlobalSettings.languageModel (sampleSettings s))
                (fun m => m !! provider);
|}.

Definition sampleFilterEnabledModels (p : ModelProviderCard.t) : list string :=
  List.map ChatModelCard.id
    (List.filter (fun v => JS.truthy (ChatModelCard.enabled v))
                 (ModelProviderCard.chatModels p)).

(** The same collaborators as computations: they read and return. *)
#[global] Instance sampleCollaborators : Collaborators SampleStore := {|
  readServerConfig := sampleServerConfig;
  runCurrentSettings := Eff.gets sampleSettings;
  runGetProviderConfigById provider :=
    Eff.gets (getProviderConfigById provider);
  runFilterEnabledModels p := Eff.ret (sampleFilterEnabledModels p);
|}.

Definition card (id : string) (enabled : option bool) : ChatModelCard.t :=
  {| ChatModelCard.id := id; ChatModelCard.displayName := None;
     ChatModelCard.enabled := enabled; ChatModelCard.files := None;
     ChatModelCard.functionCall := None; ChatModelCard.isCustom := None;
     ChatModelCard.tokens := None; ChatModelCard.vision := None |}.

Definition gpt4 : ChatModelCard.t :=
  {| ChatModelCard.id := "gpt-4"; ChatModelCard.displayName := Some "GPT-4";
     ChatModelCard.enabled := Some true; ChatModelCard.files := None;
     ChatModelCard.functionCall := Some true; ChatModelCard.isCustom := None;
     ChatModelCard.tokens := Some 8192; ChatModelCard.vision := None |}.

Definition provider (id : string) (models : list ChatModelCard.t)
    : ModelProviderCard.t :=
  {| ModelProviderCard.id := id; ModelProviderCard.name := None;
     ModelProviderCard.chatModels := models;
     ModelProviderCard.enabled := None |}.

Definition sampleProviders : ModelProviders := {|
  AnthropicProviderCard := provider "anthropic" [card "claude-3-opus" (Some true)];
  AzureProviderCard := provider "azure" [card "gpt-35-turbo" (Some true)];
  BedrockProviderCard := provider "bedrock" [];
  GoogleProviderCard := provider "google" [card "gemini-pro-vision" (Some true)];
  GroqProviderCard := provider "groq" [];
  MistralProviderCard := provider "mistral" [];
  MoonshotProviderCard := provider "moonshot" [];
  OllamaProviderCard := provider "ollama" [card "llama2" None];
  OpenAIProviderCard :=
    provider "openai" [gpt4; card "gpt-3.5-turbo" (Some true); card "gpt-4-32k" None];
  OpenRouterProviderCard := provider "openrouter" [];
  PerplexityProviderCard := provider "perplexity" [];
  TogetherAIProviderCard := provider "togetherai" [];
  ZeroOneProviderCard := provider "zeroone" [];
  ZhiPuProviderCard := provider "zhipu" [];
|}.

(** Nothing configured: no server language-model config, no settings. *)
Definition emptyStore : SampleStore := {|
  sampleServerConfig := {| GlobalServerConfig.languageModel := None |};
  sampleSettings := {| GlobalSettings.languageModel := None |};
  sampleOther := 0%nat;
|}.

Definition providerConfig
    (custom : option (list ChatModelCard.t)) (enabled : option bool)
    (enabledModels : option (list string))
    (remote : option (list ChatModelCard.t))
    : GeneralModelProviderConfig.t :=
  {| GeneralModelProviderConfig.customModelCards := custom;
     GeneralModelProviderConfig.enabled := enabled;
     GeneralModelProviderConfig.enabledModels := enabledModels;
     GeneralModelProviderConfig.remoteModelCards := remote |}.

(** The server supplies cards for anthropic and for openai; the user
    enabled openai, customised [gpt-4], added [my-model] and picked both. *)
Definition busyStore : SampleStore := {|
  sampleServerConfig :=
    {| GlobalServerConfig.languageModel :=
         Some (<["anthropic" :=
                   {| ServerModelProviderConfig.serverModelCards :=
                        Some [card "claude-2" (Some true)] |}]>
               (<["openai" :=
                   {| ServerModelProviderConfig.serverModelCards :=
                        Some [gpt4; card "gpt-4-vision-preview" None] |}]> ∅)) |};
  sampleSettings :=
    {| GlobalSettings.languageModel :=
         Some (<["openai" :=
                   providerConfig
                     (Some [card "gpt-4" None; card "my-model" None])
                     (Some true)
                     (Some ["gpt-4"; ""; "my-model"])
                     (Some [card "remote-model" None])]>
               (<["ollama" :=
                   providerConfig None (Some false) None
                     (Some [card "mistral:7b" (Some true)])]> ∅)) |};
  sampleOther := 0%nat;
|}.

(** [busyStore] with a different unrelated slice. *)
Definition busyStore' : SampleStore := {|
  sampleServerConfig := sampleServerConfig busyStore;
  sampleSettings := sampleSettings busyStore;
  sampleOther := 7%nat;
|}.

End Sample.

(** Collaborators whose [currentSettings] throws before reading anything. *)
Definition throwingCollaborators : Collaborators Sample.SampleStore := {|
  readServerConfig := Sample.sampleServerConfig;
  runCurrentSettings := Eff.throw "settings are not loaded";
  runGetProviderConfigById provider :=
    Eff.gets (getProviderConfigById provider);
  runFilterEnabledModels p := Eff.ret (Sample.sampleFilterEnabledModels p);
|}.

(** ** Specification-side definitions *)

(** The built-in provider cards in the order the provider list shows them. *)
Definition builtinProviderCards (MP : ModelProviders) : list ModelProviderCard.t :=
  [ OpenAIProviderCard MP; AzureProviderCard MP; OllamaProviderCard MP;
    AnthropicProviderCard MP; GoogleProviderCard MP;
    OpenRouterProviderCard MP; TogetherAIProviderCard MP;
    BedrockProviderCard MP; PerplexityProviderCard MP;
    MistralProviderCard MP; GroqProviderCard MP; MoonshotProviderCard MP;
    ZeroOneProviderCard MP; ZhiPuProviderCard MP ].

(** The merge rule in the specification's words: the server-supplied cards
    when present, otherwise the remote-fetched cards when present, otherwise
    the fallback. *)
Definition mergedBySpec
    (server remote : option (list ChatModelCard.t))
    (fallback : list ChatModelCard.t) : list ChatModelCard.t :=
  match server with
  | Some cards => cards
  | None =>
      match remote with
      | Some cards => cards
      | None => fallback
      end
  end.

(** How [defaultModelProviderList] treats a provider. *)
Inductive MergePolicy : Type :=
| MergeOverBuiltin (key : string)
| MergeOverEmpty (key : string)
| KeepBuiltin.

Definition mergePolicies : list MergePolicy :=
  [ MergeOverBuiltin "openai"; MergeOverEmpty "azure";
    MergeOverBuiltin "ollama"; KeepBuiltin; KeepBuiltin;
    MergeOverBuiltin "openrouter"; MergeOverBuiltin "togetherai";
    KeepBuiltin; KeepBuiltin; KeepBuiltin; KeepBuiltin; KeepBuiltin;
    KeepBuiltin; KeepBuiltin ].

Section SpecSide.
Context {GlobalStore : Type} `{Store GlobalStore}.

(** The merge rule applied to one provider, keyed by the provider's id. *)
Definition merge_rule (s : GlobalStore)
    (builtin computed : ModelProviderCard.t) : Prop :=
  ModelProviderCard.chatModels computed =
  mergedBySpec
    (serverProviderModelCards (ModelProviderCard.id builtin) s)
    (remoteProviderModelCards (ModelProviderCard.id builtin) s)
    (ModelProviderCard.chatModels builtin).

(** The merge rule applied to every provider of the list. *)
Definition merge_rule_everywhere (MP : ModelProviders) (s : GlobalStore) : Prop :=
  Forall2 (merge_rule s) (builtinProviderCards MP)
          (defaultModelProviderList MP s).

Definition follows_policy (s : GlobalStore)
    (entry : MergePolicy * ModelProviderCard.t)
    (computed : ModelProviderCard.t) : Prop :=
  let (policy, builtin) := entry in
  ModelProviderCard.id computed = ModelProviderCard.id builtin /\
  ModelProviderCard.name computed = ModelProviderCard.name builtin /\
  ModelProviderCard.enabled computed = ModelProviderCard.enabled builtin /\
  ModelProviderCard.chatModels computed =
  match policy with
  | MergeOverBuiltin key =>
      mergedBySpec (serverProviderModelCards key s)
                   (remoteProviderModelCards key s)
                   (ModelProviderCard.chatModels builtin)
  | MergeOverEmpty key =>
      mergedBySpec (serverProviderModelCards key s)
                   (remoteProviderModelCards key s)
                   []
  | KeepBuiltin => ModelProviderCard.chatModels builtin
  end.

(** Two stores that show the selectors the same snapshot. *)
Definition same_snapshot (s1 s2 : GlobalStore) : Prop :=
  serverConfig s1 = serverConfig s2 /\
  currentSettings s1 = currentSettings s2 /\
  forall provider,
    getProviderConfigById provider s1 = getProviderConfigById provider s2.

(** The custom cards of a provider's config, [[]] when there are none. *)
Definition customModelCardsOf
    (provider : string) (s : GlobalStore) : list ChatModelCard.t :=
  match getProviderConfigById provider s with
  | Some config =>
      match GeneralModelProviderConfig.customModelCards config with
      | Some cards => cards
      | None => []
      end
  | None => []
  end.

(** The [enabledModels] list of a provider's config, if it defines one. *)
Definition enabledModelsOf
    (provider : string) (s : GlobalStore) : option (list string) :=
  match getProviderConfigById provider s with
  | Some config => GeneralModelProviderConfig.enabledModels config
  | None => None
  end.

(** The [enabled] flag of a provider's config, if there is one. *)
Definition providerEnabledOf
    (provider : string) (s : GlobalStore) : option bool :=
  match getProviderConfigById provider s with
  | Some config => GeneralModelProviderConfig.enabled config
  | None => None
  end.
End SpecSide.

(** [not_customised custom card]: no card of [custom] has the id of [card]. *)
Definition not_customised
    (custom : list ChatModelCard.t) (card : ChatModelCard.t) : bool :=
  negb (existsb (JS.strictEq (ChatModelCard.id card))
                (List.map ChatModelCard.id custom)).

(** The callback [modelProviderList] maps over a provider's cards, given
    what [getEnableModelsById] returned for the provider. *)
Definition withPickedFlag
    (models : option (list string)) (model : ChatModelCard.t)
    : ChatModelCard.t :=
  match models with
  | None => model
  | Some models =>
      ChatModelCard.withEnabled model
        (existsb (fun m => JS.strictEq m (ChatModelCard.id model)) models)
  end.

(** [offered picked card]: the id of [card] is a non-empty entry of
    [picked]. *)
Definition offered (picked : list string) (card : ChatModelCard.t) : bool :=
  existsb (fun m => JS.strictEq m (ChatModelCard.id card))
          (List.filter JS.truthyString picked).

(** [has_substring s sub]: [sub] occurs in [s]. *)
Definition has_substring (s sub : string) : Prop :=
  exists before after, s = String.append before (String.append sub after).

(** A computation that hands back the store it was given. *)
Definition ReadOnly {S A : Type} (m : Eff S A) : Prop :=
  forall s, fst (m s) = s.

(** A computation that returns a value on every store. *)
Definition Returns {S A : Type} (m : Eff S A) : Prop :=
  forall s, exists v, snd (m s) = Normal v.

(** A computation that reads the store and returns what [f] computes. *)
Definition Computes {S A : Type} (m : Eff S A) (f : S -> A) : Prop :=
  forall s, m s = (s, Normal (f s)).

(** A property of computations that holds of the constructs the selectors
    are written with: returning, reading a property of the store, reading a
    property of a defined value, and sequencing. *)
Record Closed {S : Type} (P : forall A : Type, Eff S A -> Prop) : Prop := {
  closed_ret : forall (A : Type) (a : A), P A (Eff.ret a);
  closed_gets : forall (A : Type) (f : S -> A), P A (Eff.gets f);
  closed_member :
    forall (A B : Type) (v : A) (f : A -> B), P B (Eff.member (Some v) f);
  closed_bind :
    forall (A B : Type) (m : Eff S A) (k : A -> Eff S B),
      P A m -> (forall a, P B (k a)) -> P B (Eff.bind m k);
}.

(** ** Facts about the JavaScript operators *)

Lemma truthy_true (o : option bool) : JS.truthy o = true <-> o = Some true.
Proof.
  destruct o as [[|]|]; simpl; split; congruence.
Qed.

Lemma strictEq_true (a b : string) : JS.strictEq a b = true <-> a = b.
Proof. apply String.eqb_eq. Qed.

Lemma existsb_strictEq (x : string) (l : list string) :
  existsb (JS.strictEq x) l = true <-> In x l.
Proof.
  rewrite existsb_exists. split.
  - intros (y & Hy & Heq). apply strictEq_true in Heq. now subst.
  - intros Hin. exists x. split; [assumption | now apply strictEq_true].
Qed.

Lemma append_String (c : Ascii.ascii) (p rest : string) :
  String.append (String c p) rest = String c (String.append p rest).
Proof. reflexivity. Qed.

Lemma append_empty (rest : string) : String.append "" rest = rest.
Proof. reflexivity. Qed.

Lemma prefix_append (p s : string) :
  String.prefix p s = true <-> exists rest, s = String.append p rest.
Proof.
  revert s. induction p as [|c p IH]; intros s.
  - split; [intros _; now exists s | intros _; now destruct s].
  - destruct s as [|d s]; simpl.
    + split; [discriminate | intros (rest & Hrest); discriminate].
    + destruct (Ascii.ascii_dec c d) as [->|Hne].
      * rewrite IH. split; intros (rest & Hrest); exists rest.
        -- rewrite append_String. congruence.
        -- rewrite append_String in Hrest. congruence.
      * split; [discriminate |].
        intros (rest & Hrest). rewrite append_String in Hrest. congruence.
Qed.

Lemma includes_unfold (s sub : string) :
  JS.includes s sub =
  if String.prefix sub s then true
  else match s with
       | EmptyString => false
       | String _ rest => JS.includes rest sub
       end.
Proof. destruct s; reflexivity. Qed.

Lemma includes_spec (s sub : string) :
  JS.includes s sub = true <-> has_substring s sub.
Proof.
  unfold has_substring. induction s as [|c s IH]; rewrite includes_unfold.
  - destruct (String.prefix sub "") eqn:Hp.
    + apply prefix_append in Hp as (rest & Hrest).
      split; [intros _; now exists "", rest | reflexivity].
    + split; [discriminate |].
      intros (before & after & Heq). destruct before as [|d before].
      * rewrite append_empty in Heq.
        assert (String.prefix sub "" = true) by (apply prefix_append; eauto).
        congruence.
      * rewrite append_String in Heq. discriminate.
  - destruct (String.prefix sub (String c s)) eqn:Hp.
    + apply prefix_append in Hp as (rest & Hrest).
      split; [intros _; now exists "", rest | reflexivity].
    + rewrite IH. split.
      * intros (before & after & ->). now exists (String c before), after.
      * intros (before & after & Heq). destruct before as [|d before].
        -- rewrite append_empty in Heq.
           assert (String.prefix sub (String c s) = true)
             by (apply prefix_append; eauto).
           congruence.
        -- rewrite append_String in Heq. injection Heq as _ ->. eauto.
Qed.

(** ** Facts about [uniqBy] *)

Section UniqByFacts.
Context {A : Type}.
Variable f : A -> string.

Lemma baseUniq_In (seen : list string) (l : list A) (x : A) :
  In x (baseUniq f seen l) -> In x l /\ ~ In (f x) seen.
Proof.
  revert seen. induction l as [|value rest IH]; intros seen; simpl.
  - intros [].
  - destruct (existsb (JS.strictEq (f value)) seen) eqn:Hseen.
    + intros Hin. apply IH in Hin as [Hin Hnot]. auto.
    + intros [<- | Hin].
      * split; [now left |].
        intros Hin. apply existsb_strictEq in Hin. congruence.
      * apply IH in Hin as [Hin Hnot]. split; [now right |].
        intros Hin'. apply Hnot. now right.
Qed.

Lemma baseUniq_NoDup (seen : list string) (l : list A) :
  List.NoDup (List.map f (baseUniq f seen l)).
Proof.
  revert seen. induction l as [|value rest IH]; intros seen; simpl.
  - constructor.
  - destruct (existsb (JS.strictEq (f value)) seen); [apply IH |].
    simpl. constructor; [| apply IH].
    intros Hin. apply List.in_map_iff in Hin as (y & Hy & Hin).
    apply baseUniq_In in Hin as [_ Hnot]. apply Hnot. now left.
Qed.

(** An element is kept exactly when its key is new and it is the first
    element of the array with that key. *)
Lemma baseUniq_first (seen : list string) (l : list A) (x : A) :
  In x (baseUniq f seen l) <->
  ~ In (f x) seen /\
  List.find (fun y => JS.strictEq (f y) (f x)) l = Some x.
Proof.
  revert seen. induction l as [|value rest IH]; intros seen; simpl.
  - split; [intros [] | intros [_ Hfind]; discriminate].
  - destruct (existsb (JS.strictEq (f value)) seen) eqn:Hseen.
    + apply existsb_strictEq in Hseen. rewrite IH.
      destruct (JS.strictEq (f value) (f x)) eqn:Heq.
      * apply strictEq_true in Heq. rewrite Heq in Hseen.
        split; intros [Hnot _]; contradiction.
      * reflexivity.
    + assert (Hnew : ~ In (f value) seen).
      { intros Hin. apply existsb_strictEq in Hin. congruence. }
      simpl. rewrite IH.
      destruct (JS.strictEq (f value) (f x)) eqn:Heq.
      * apply strictEq_true in Heq. split.
        -- intros [<- | [Hnot _]]; [split; [assumption | reflexivity] |].
           exfalso. apply Hnot. left. assumption.
        -- intros [_ Hsome]. left. congruence.
      * assert (Hne : f value <> f x).
        { intros He. apply strictEq_true in He. congruence. }
        split.
        -- intros [<- | [Hnot Hfind]]; [congruence |].
           split; [| assumption]. intros Hin. apply Hnot. now right.
        -- intros [Hnot Hfind]. right. split; [| assumption].
           intros [He | Hin]; [congruence | contradiction].
Qed.

Lemma uniqBy_NoDup (l : list A) : List.NoDup (List.map f (uniqBy f l)).
Proof. apply baseUniq_NoDup. Qed.

Lemma uniqBy_first (l : list A) (x : A) :
  In x (uniqBy f l) <->
  List.find (fun y => JS.strictEq (f y) (f x)) l = Some x.
Proof.
  unfold uniqBy. rewrite baseUniq_first. simpl. tauto.
Qed.

Lemma uniqBy_In (l : list A) (x : A) : In x (uniqBy f l) -> In x l.
Proof. intros Hin. now apply baseUniq_In in Hin. Qed.

(** Every key of the array is still represented after [uniqBy]. *)
Lemma uniqBy_keeps_keys (l : list A) (x : A) :
  In x l -> exists y, In y (uniqBy f l) /\ f y = f x.
Proof.
  intros Hin.
  destruct (List.find (fun y => JS.strictEq (f y) (f x)) l) as [y|] eqn:Hfind.
  - exists y. pose proof (List.find_some _ _ Hfind) as [_ Heq].
    apply strictEq_true in Heq. split; [| assumption].
    apply uniqBy_first. rewrite Heq. assumption.
  - exfalso. pose proof (List.find_none _ _ Hfind x Hin) as Hno.
    simpl in Hno. assert (JS.strictEq (f x) (f x) = true)
      by now apply strictEq_true.
    congruence.
Qed.

Lemma find_app_key (l1 l2 : list A) (k : string) :
  List.find (fun y => JS.strictEq (f y) k) (l1 ++ l2) =
  match List.find (fun y => JS.strictEq (f y) k) l1 with
  | Some y => Some y
  | None => List.find (fun y => JS.strictEq (f y) k) l2
  end.
Proof.
  induction l1 as [|a l1 IH]; simpl; [reflexivity |].
  destruct (JS.strictEq (f a) k); [reflexivity | apply IH].
Qed.

Lemma find_key_In (l : list A) (k : string) :
  In k (List.map f l) ->
  exists y, List.find (fun y => JS.strictEq (f y) k) l = Some y.
Proof.
  induction l as [|a l IH]; simpl; [intros [] |].
  destruct (JS.strictEq (f a) k) eqn:Heq; [eauto |].
  intros [He | Hin]; [| auto].
  apply strictEq_true in He. congruence.
Qed.
End UniqByFacts.

(** ** Properties of the selectors *)

Section SelectorFacts.
Context {GlobalStore : Type} `{Store GlobalStore}.
Variable MP : ModelProviders.

Lemma userCards_custom (provider : string) (s : GlobalStore) :
  userCards provider s =
  List.map (fun model => ChatModelCard.withIsCustom model true)
           (customModelCardsOf provider s).
Proof.
  unfold userCards, customModelCardsOf.
  destruct (getProviderConfigById provider s) as [config|]; simpl;
    [| reflexivity].
  now destruct (GeneralModelProviderConfig.customModelCards config).
Qed.

Lemma userCards_ids (provider : string) (s : GlobalStore) :
  List.map ChatModelCard.id (userCards provider s) =
  List.map ChatModelCard.id (customModelCardsOf provider s).
Proof.
  rewrite userCards_custom, List.map_map. reflexivity.
Qed.

Lemma userCards_In (provider : string) (s : GlobalStore) (card : ChatModelCard.t) :
  In card (userCards provider s) <->
  exists c, In c (customModelCardsOf provider s) /\
            card = ChatModelCard.withIsCustom c true.
Proof.
  rewrite userCards_custom, List.in_map_iff.
  split; intros (c & H1 & H2); exists c; auto.
Qed.

(** A returned card whose id is a custom id is the first user card with
    that id. *)
Lemma getModelCardsById_custom_id
    (provider : string) (s : GlobalStore) (card : ChatModelCard.t) :
  In card (getModelCardsById MP provider s) ->
  In (ChatModelCard.id card)
     (List.map ChatModelCard.id (customModelCardsOf provider s)) ->
  In card (userCards provider s).
Proof.
  unfold getModelCardsById. intros Hin Hid.
  apply uniqBy_first in Hin. rewrite find_app_key in Hin.
  rewrite <- userCards_ids in Hid.
  apply (find_key_In ChatModelCard.id) in Hid as (y & Hy).
  rewrite Hy in Hin. injection Hin as <-.
  now apply List.find_some in Hy.
Qed.
End SelectorFacts.

(** C2: for every store state and provider id, the cards returned by
    [getModelCardsById] have pairwise distinct ids. *)
Theorem getModelCardsById_ids_distinct
    {GlobalStore : Type} `{Store GlobalStore}
    (MP : ModelProviders) (provider : string) (s : GlobalStore) :
  List.NoDup (List.map ChatModelCard.id (getModelCardsById MP provider s)).
Proof.
  unfold getModelCardsById. apply uniqBy_NoDup.
Qed.

(** C8: user-customised cards take precedence over built-in ones.  Every
    custom id is represented in the result of [getModelCardsById] by a card
    made from the config's [customModelCards]; a returned card whose id is a
    custom id is such a card and has [isCustom] set to true; a returned card
    with any other id is a built-in card; and a built-in card that shares
    its id with a custom card and is not itself flagged custom is not
    returned. *)
Theorem custom_cards_take_precedence
    {GlobalStore : Type} `{Store GlobalStore}
    (MP : ModelProviders) (provider : string) (s : GlobalStore) :
  let result := getModelCardsById MP provider s in
  let custom := customModelCardsOf provider s in
  let builtin := builtinCards MP provider s in
  (forall c, In c custom ->
     exists c', In c' custom /\ ChatModelCard.id c' = ChatModelCard.id c /\
                In (ChatModelCard.withIsCustom c' true) result) /\
  (forall card, In card result ->
     In (ChatModelCard.id card) (List.map ChatModelCard.id custom) ->
     ChatModelCard.isCustom card = Some true /\
     exists c, In c custom /\ card = ChatModelCard.withIsCustom c true) /\
  (forall card, In card result ->
     ~ In (ChatModelCard.id card) (List.map ChatModelCard.id custom) ->
     In card builtin) /\
  (forall b, In b builtin ->
     In (ChatModelCard.id b) (List.map ChatModelCard.id custom) ->
     ChatModelCard.isCustom b <> Some true ->
     ~ In b result).
Proof.
  intros result custom builtin. subst result custom builtin.
  set (result := getModelCardsById MP provider s).
  set (custom := customModelCardsOf provider s).
  assert (Hsecond : forall card, In card result ->
     In (ChatModelCard.id card) (List.map ChatModelCard.id custom) ->
     ChatModelCard.isCustom card = Some true /\
     exists c, In c custom /\ card = ChatModelCard.withIsCustom c true).
  { intros card Hin Hid.
    pose proof (getModelCardsById_custom_id MP provider s card Hin Hid) as Hu.
    apply userCards_In in Hu as (c & Hc & ->). split; [reflexivity | eauto]. }
  repeat split.
  - intros c Hc.
    assert (Hu : In (ChatModelCard.withIsCustom c true)
                    (userCards provider s ++ builtinCards MP provider s)).
    { apply List.in_or_app. left. apply userCards_In. eauto. }
    apply (uniqBy_keeps_keys ChatModelCard.id) in Hu as (y & Hy & Hid).
    simpl in Hid.
    destruct (Hsecond y Hy) as [_ (c' & Hc' & ->)].
    { rewrite Hid. now apply List.in_map. }
    exists c'. auto.
  - apply Hsecond; assumption.
  - apply Hsecond; assumption.
  - intros card Hin Hid.
    apply uniqBy_In, List.in_app_or in Hin as [Hu | Hb]; [| assumption].
    exfalso. apply Hid. subst custom. rewrite <- userCards_ids.
    now apply List.in_map.
  - intros b _ Hid Hflag Hin. apply Hflag. now apply Hsecond.
Qed.

(** The store of the example has a custom and a built-in [gpt-4]: the list
    holds the custom one only. *)
Lemma custom_cards_take_precedence_witness :
  ~ In Sample.gpt4 (getModelCardsById Sample.sampleProviders "openai" Sample.busyStore).
Proof.
  apply (custom_cards_take_precedence
           Sample.sampleProviders "openai" Sample.busyStore).
  - vm_compute. tauto.
  - vm_compute. tauto.
  - vm_compute. discriminate.
Defined.

(** C9: a model id that contains ['vision'] is reported as vision-capable
    on every store, whether or not any provider has a card with that id,
    and is therefore reported as upload-capable too. *)
Theorem vision_in_id_enables_vision
    {GlobalStore : Type} `{Store GlobalStore}
    (MP : ModelProviders) (id : string) (s : GlobalStore) :
  has_substring id "vision" ->
  isModelEnabledVision MP id s = true /\
  isModelEnabledUpload MP id s = Some true.
Proof.
  intros Hsub. apply includes_spec in Hsub.
  assert (Hvision : isModelEnabledVision MP id s = true).
  { unfold isModelEnabledVision, JS.orBool. rewrite Hsub.
    now destruct (JS.truthy _). }
  split; [assumption |].
  unfold isModelEnabledUpload. rewrite Hvision. reflexivity.
Qed.

Lemma vision_in_id_enables_vision_witness :
  getModelCardById Sample.sampleProviders "llava-vision-7b" Sample.emptyStore = None /\
  isModelEnabledVision Sample.sampleProviders "llava-vision-7b" Sample.emptyStore = true /\
  isModelEnabledUpload Sample.sampleProviders "llava-vision-7b" Sample.emptyStore
  = Some true.
Proof.
  split; [reflexivity |].
  apply (vision_in_id_enables_vision
           Sample.sampleProviders "llava-vision-7b" Sample.emptyStore).
  exists "llava-", "-7b". reflexivity.
Defined.

(** C7: the capability selectors report the card found by
    [getModelCardById]: [isModelEnabledFunctionCall] is true exactly when
    that card has [functionCall] true, and false when there is no card;
    [isModelHasMaxToken] is true exactly when the card defines [tokens];
    [modelMaxToken] is that token limit, and [0] when the limit is undefined
    or there is no card. *)
Theorem capability_selectors_report_card
    {GlobalStore : Type} `{Store GlobalStore}
    (MP : ModelProviders) (id : string) (s : GlobalStore) :
  (isModelEnabledFunctionCall MP id s = true <->
   exists card, getModelCardById MP id s = Some card /\
                ChatModelCard.functionCall card = Some true) /\
  (getModelCardById MP id s = None ->
   isModelEnabledFunctionCall MP id s = false) /\
  (isModelHasMaxToken MP id s = true <->
   exists card limit, getModelCardById MP id s = Some card /\
                      ChatModelCard.tokens card = Some limit) /\
  (forall card limit,
     getModelCardById MP id s = Some card ->
     ChatModelCard.tokens card = Some limit ->
     modelMaxToken MP id s = limit) /\
  (forall card,
     getModelCardById MP id s = Some card ->
     ChatModelCard.tokens card = None ->
     modelMaxToken MP id s = 0) /\
  (getModelCardById MP id s = None -> modelMaxToken MP id s = 0).
Proof.
  unfold isModelEnabledFunctionCall, isModelHasMaxToken, modelMaxToken.
  destruct (getModelCardById MP id s) as [card|]; simpl.
  - repeat split.
    + unfold JS.orBool. intros Hfc. exists card. split; [reflexivity |].
      apply truthy_true. now destruct (JS.truthy _).
    + intros (card' & Heq & Hfc). injection Heq as <-.
      unfold JS.orBool. now rewrite Hfc.
    + discriminate.
    + intros Hdef. destruct (ChatModelCard.tokens card) as [limit|] eqn:Ht;
        [eauto | discriminate].
    + intros (card' & limit & Heq & Ht). injection Heq as <-. now rewrite Ht.
    + intros card' limit Heq Ht. injection Heq as <-. rewrite Ht. simpl.
      destruct (Z.eqb_spec limit 0); congruence.
    + intros card' Heq Ht. injection Heq as <-. now rewrite Ht.
    + discriminate.
  - repeat split; try discriminate; try reflexivity.
    + intros (card & Heq & _). discriminate.
    + intros (card & limit & Heq & _). discriminate.
Qed.

Lemma capability_selectors_report_card_witness :
  modelMaxToken Sample.sampleProviders "gpt-4" Sample.emptyStore = 8192.
Proof.
  apply (capability_selectors_report_card
           Sample.sampleProviders "gpt-4" Sample.emptyStore)
    with (card := Sample.gpt4).
  - reflexivity.
  - reflexivity.
Defined.

Lemma Forall2_map_right {A B : Type} (R : A -> B -> Prop) (g : A -> B) (l : list A) :
  (forall x, In x l -> R x (g x)) -> Forall2 R l (List.map g l).
Proof.
  induction l as [|x l IH]; simpl; intros HR; constructor.
  - apply HR. now left.
  - apply IH. intros y Hy. apply HR. now right.
Qed.

Lemma Forall2_map_left {A B : Type} (R : B -> A -> Prop) (g : A -> B) (l : list A) :
  (forall x, In x l -> R (g x) x) -> Forall2 R (List.map g l) l.
Proof.
  induction l as [|x l IH]; simpl; intros HR; constructor.
  - apply HR. now left.
  - apply IH. intros y Hy. apply HR. now right.
Qed.

Lemma filter_truthy {A : Type} (flag : A -> option bool) (l : list A) :
  List.filter (fun x => JS.truthy (flag x)) l =
  List.filter (fun x => bool_decide (flag x = Some true)) l.
Proof.
  apply List.filter_ext. intros x.
  destruct (flag x) as [[|]|]; reflexivity.
Qed.

(** C3: [modelProviderListForModelSelect] returns, in order, exactly the
    providers of [modelProviderList] whose [enabled] flag is true, each
    unchanged but for its [chatModels], which are exactly its model cards
    whose [enabled] flag is true. *)
Theorem modelProviderListForModelSelect_enabled_only
    {GlobalStore : Type} `{Store GlobalStore}
    (MP : ModelProviders) (s : GlobalStore) :
  Forall2
    (fun shown provider =>
       ModelProviderCard.id shown = ModelProviderCard.id provider /\
       ModelProviderCard.name shown = ModelProviderCard.name provider /\
       ModelProviderCard.enabled shown = Some true /\
       ModelProviderCard.chatModels shown =
       List.filter
         (fun model => bool_decide (ChatModelCard.enabled model = Some true))
         (ModelProviderCard.chatModels provider))
    (modelProviderListForModelSelect MP s)
    (List.filter
       (fun provider => bool_decide (ModelProviderCard.enabled provider = Some true))
       (modelProviderList MP s)).
Proof.
  unfold modelProviderListForModelSelect.
  rewrite (filter_truthy ModelProviderCard.enabled).
  apply Forall2_map_left. intros provider Hin.
  apply List.filter_In in Hin as [_ Hflag].
  apply bool_decide_eq_true in Hflag. simpl.
  rewrite (filter_truthy ChatModelCard.enabled). auto.
Qed.

(** C10: for every provider of the list, [modelProviderList] keeps the
    provider's id and, if the provider's config defines no [enabledModels],
    its [chatModels] are the merged cards of [getModelCardsById] unchanged;
    if [enabledModels] is defined, each merged card is returned with only
    its [enabled] flag rewritten, to true exactly when the card's id occurs
    in the list once its falsy entries are dropped. *)
Theorem modelProviderList_enabled_flags
    {GlobalStore : Type} `{Store GlobalStore}
    (MP : ModelProviders) (s : GlobalStore) :
  Forall2
    (fun builtin provider =>
       let merged := getModelCardsById MP (ModelProviderCard.id builtin) s in
       ModelProviderCard.id provider = ModelProviderCard.id builtin /\
       match enabledModelsOf (ModelProviderCard.id builtin) s with
       | None => ModelProviderCard.chatModels provider = merged
       | Some picked =>
           Forall2
             (fun model shown =>
                exists flag,
                  shown = ChatModelCard.withEnabled model flag /\
                  (flag = true <->
                   In (ChatModelCard.id model)
                      (List.filter JS.truthyString picked)))
             merged (ModelProviderCard.chatModels provider)
       end)
    (defaultModelProviderList MP s)
    (modelProviderList MP s).
Proof.
  unfold modelProviderList. apply Forall2_map_right.
  intros builtin _. simpl. split; [reflexivity |].
  unfold getEnableModelsById, enabledModelsOf.
  destruct (getProviderConfigById (ModelProviderCard.id builtin) s)
    as [config|]; simpl.
  - destruct (GeneralModelProviderConfig.enabledModels config) as [picked|];
      simpl.
    + apply Forall2_map_right. intros model _.
      eexists. split; [reflexivity |].
      rewrite <- existsb_strictEq. rewrite List.existsb_exists, List.existsb_exists.
      split; intros (m & Hm & Heq); exists m; split; try assumption;
        apply strictEq_true; apply strictEq_true in Heq; congruence.
    + apply List.map_id.
  - apply List.map_id.
Qed.

Lemma Forall2_nth_error {A B : Type} (R : A -> B -> Prop) (l1 : list A) (l2 : list B) :
  Forall2 R l1 l2 ->
  forall i a b, nth_error l1 i = Some a -> nth_error l2 i = Some b -> R a b.
Proof.
  induction 1 as [|x y l1 l2 HR _ IH]; intros [|i] a b; simpl;
    try discriminate.
  - intros [= <-] [= <-]. assumption.
  - apply IH.
Qed.

Lemma mergeModels_mergedBySpec
    {GlobalStore : Type} `{Store GlobalStore}
    (s : GlobalStore) (key : string) (fallback : list ChatModelCard.t) :
  mergeModels s key fallback =
  mergedBySpec (serverProviderModelCards key s)
               (remoteProviderModelCards key s) fallback.
Proof.
  unfold mergeModels, mergedBySpec.
  destruct (serverProviderModelCards key s); simpl; [reflexivity |].
  destruct (remoteProviderModelCards key s); reflexivity.
Qed.

(** C1, as stated, fails: the server supplies cards for anthropic, and
    [defaultModelProviderList] still shows anthropic's built-in cards. *)
Lemma merge_rule_everywhere_counterexample :
  ~ merge_rule_everywhere Sample.sampleProviders Sample.busyStore.
Proof.
  intros Hall.
  pose proof (Forall2_nth_error _ _ _ Hall 3%nat _ _ eq_refl eq_refl) as Hrule.
  vm_compute in Hrule. discriminate Hrule.
Qed.

(** The other way the list departs from the rule: with nothing configured,
    azure shows no models although its built-in card has one. *)
Example azure_falls_back_to_empty :
  List.map ModelProviderCard.chatModels
    (List.filter (fun p => JS.strictEq (ModelProviderCard.id p) "azure")
       (defaultModelProviderList Sample.sampleProviders Sample.emptyStore))
  = [[]] /\
  ModelProviderCard.chatModels (AzureProviderCard Sample.sampleProviders) <> [].
Proof.
  split; [reflexivity | discriminate].
Qed.

(** C1, amended: in [defaultModelProviderList] the providers openai,
    ollama, openrouter and togetherai show the server-supplied cards when
    present, otherwise the remote-fetched cards when present, otherwise their
    built-in cards; azure does the same with the empty list as its
    fallback; every other provider shows its built-in cards whatever the
    server or the remote source supplies.  Nothing but [chatModels] differs
    from the built-in provider card. *)
Theorem defaultModelProviderList_merge_policy
    {GlobalStore : Type} `{Store GlobalStore}
    (MP : ModelProviders) (s : GlobalStore) :
  Forall2 (follows_policy s)
          (List.combine mergePolicies (builtinProviderCards MP))
          (defaultModelProviderList MP s).
Proof.
  unfold defaultModelProviderList, builtinProviderCards, mergePolicies.
  simpl. repeat constructor; simpl; apply mergeModels_mergedBySpec.
Qed.

(** ** Dependence on the snapshot only *)

Section Snapshot.
Context {GlobalStore : Type} `{Store GlobalStore}.
Variable MP : ModelProviders.
Variable filterEnabledModels : ModelProviderCard.t -> list string.
Variables s1 s2 : GlobalStore.
Hypothesis Hsame : same_snapshot s1 s2.

Lemma serverProviderModelCards_snapshot (provider : string) :
  serverProviderModelCards provider s1 = serverProviderModelCards provider s2.
Proof.
  destruct Hsame as (Hserver & _ & _).
  unfold serverProviderModelCards. now rewrite Hserver.
Qed.

Lemma remoteProviderModelCards_snapshot (provider : string) :
  remoteProviderModelCards provider s1 = remoteProviderModelCards provider s2.
Proof.
  destruct Hsame as (_ & Hsettings & _).
  unfold remoteProviderModelCards. now rewrite Hsettings.
Qed.

Lemma isProviderEnabled_snapshot (provider : string) :
  isProviderEnabled provider s1 = isProviderEnabled provider s2.
Proof.
  destruct Hsame as (_ & _ & Hconfig).
  unfold isProviderEnabled. now rewrite Hconfig.
Qed.

Lemma defaultModelProviderList_snapshot :
  defaultModelProviderList MP s1 = defaultModelProviderList MP s2.
Proof.
  unfold defaultModelProviderList, mergeModels.
  now rewrite !serverProviderModelCards_snapshot,
              !remoteProviderModelCards_snapshot.
Qed.

Lemma getDefaultModeProviderById_snapshot (provider : string) :
  getDefaultModeProviderById MP provider s1 =
  getDefaultModeProviderById MP provider s2.
Proof.
  unfold getDefaultModeProviderById.
  now rewrite defaultModelProviderList_snapshot.
Qed.

Lemma getModelCardsById_snapshot (provider : string) :
  getModelCardsById MP provider s1 = getModelCardsById MP provider s2.
Proof.
  destruct Hsame as (_ & _ & Hconfig).
  unfold getModelCardsById, userCards, builtinCards.
  now rewrite getDefaultModeProviderById_snapshot, Hconfig.
Qed.

Lemma getEnableModelsById_snapshot (provider : string) :
  getEnableModelsById provider s1 = getEnableModelsById provider s2.
Proof.
  destruct Hsame as (_ & _ & Hconfig).
  unfold getEnableModelsById. now rewrite Hconfig.
Qed.

Lemma modelProviderList_snapshot :
  modelProviderList MP s1 = modelProviderList MP s2.
Proof.
  unfold modelProviderList. rewrite defaultModelProviderList_snapshot.
  apply List.map_ext. intros list.
  now rewrite getModelCardsById_snapshot, getEnableModelsById_snapshot,
              isProviderEnabled_snapshot.
Qed.

Lemma getModelCardById_snapshot (id : string) :
  getModelCardById MP id s1 = getModelCardById MP id s2.
Proof.
  unfold getModelCardById. now rewrite modelProviderList_snapshot.
Qed.

Lemma isModelEnabledVision_snapshot (id : string) :
  isModelEnabledVision MP id s1 = isModelEnabledVision MP id s2.
Proof.
  unfold isModelEnabledVision. now rewrite getModelCardById_snapshot.
Qed.

Lemma isModelEnabledFiles_snapshot (id : string) :
  isModelEnabledFiles MP id s1 = isModelEnabledFiles MP id s2.
Proof.
  unfold isModelEnabledFiles. now rewrite getModelCardById_snapshot.
Qed.
End Snapshot.

(** C5: every selector is deterministic.  Its result is a function of its
    arguments and of what the store shows at call time (the server config,
    the current settings and the provider configs): two calls with the same
    arguments on stores that show the same snapshot, and so in particular on
    equal stores, return equal results. *)
Theorem selectors_deterministic
    {GlobalStore : Type} `{Store GlobalStore}
    (MP : ModelProviders)
    (filterEnabledModels : ModelProviderCard.t -> list string)
    (s1 s2 : GlobalStore) :
  same_snapshot s1 s2 ->
  defaultModelProviderList MP s1 = defaultModelProviderList MP s2 /\
  (forall provider,
     getDefaultEnabledModelsById MP filterEnabledModels provider s1 =
     getDefaultEnabledModelsById MP filterEnabledModels provider s2) /\
  (forall id, getDefaultModelCardById MP id s1 = getDefaultModelCardById MP id s2) /\
  (forall provider,
     getEnableModelsById provider s1 = getEnableModelsById provider s2) /\
  (forall id, getModelCardById MP id s1 = getModelCardById MP id s2) /\
  (forall provider,
     getModelCardsById MP provider s1 = getModelCardsById MP provider s2) /\
  (forall id, isModelEnabledFiles MP id s1 = isModelEnabledFiles MP id s2) /\
  (forall id,
     isModelEnabledFunctionCall MP id s1 = isModelEnabledFunctionCall MP id s2) /\
  (forall id, isModelEnabledUpload MP id s1 = isModelEnabledUpload MP id s2) /\
  (forall id, isModelEnabledVision MP id s1 = isModelEnabledVision MP id s2) /\
  (forall id, isModelHasMaxToken MP id s1 = isModelHasMaxToken MP id s2) /\
  (forall id, modelMaxToken MP id s1 = modelMaxToken MP id s2) /\
  modelProviderList MP s1 = modelProviderList MP s2 /\
  modelProviderListForModelSelect MP s1 = modelProviderListForModelSelect MP s2.
Proof.
  intros Hsame.
  pose proof (defaultModelProviderList_snapshot MP s1 s2 Hsame) as Hdefault.
  pose proof (modelProviderList_snapshot MP s1 s2 Hsame) as Hlist.
  pose proof (getModelCardById_snapshot MP s1 s2 Hsame) as Hcard.
  repeat split; try assumption.
  - intros provider. unfold getDefaultEnabledModelsById.
    now rewrite (getDefaultModeProviderById_snapshot MP s1 s2 Hsame).
  - intros id. unfold getDefaultModelCardById. now rewrite Hdefault.
  - apply (getEnableModelsById_snapshot s1 s2 Hsame).
  - apply (getModelCardsById_snapshot MP s1 s2 Hsame).
  - apply (isModelEnabledFiles_snapshot MP s1 s2 Hsame).
  - intros id. unfold isModelEnabledFunctionCall. now rewrite Hcard.
  - intros id. unfold isModelEnabledUpload.
    now rewrite (isModelEnabledVision_snapshot MP s1 s2 Hsame),
                (isModelEnabledFiles_snapshot MP s1 s2 Hsame).
  - apply (isModelEnabledVision_snapshot MP s1 s2 Hsame).
  - intros id. unfold isModelHasMaxToken. now rewrite Hcard.
  - intros id. unfold modelMaxToken. now rewrite Hcard.
  - unfold modelProviderListForModelSelect. now rewrite Hlist.
Qed.

Lemma same_snapshot_refl
    {GlobalStore : Type} `{Store GlobalStore} (s : GlobalStore) :
  same_snapshot s s.
Proof. repeat split. Qed.

(** Two stores that differ only in a slice the selectors never read. *)
Lemma selectors_deterministic_witness :
  Sample.busyStore <> Sample.busyStore' /\
  modelProviderList Sample.sampleProviders Sample.busyStore =
  modelProviderList Sample.sampleProviders Sample.busyStore'.
Proof.
  split; [discriminate |].
  apply (selectors_deterministic Sample.sampleProviders
           Sample.sampleFilterEnabledModels Sample.busyStore Sample.busyStore').
  repeat split.
Defined.

(** ** Frame and totality of the state-passing computations *)

Section EffFacts.
Context {S : Type}.

Lemma ReadOnly_ret {A : Type} (a : A) : ReadOnly (Eff.ret (S := S) a).
Proof. intros s. reflexivity. Qed.

Lemma ReadOnly_gets {A : Type} (f : S -> A) : ReadOnly (Eff.gets f).
Proof. intros s. reflexivity. Qed.

Lemma ReadOnly_member {A B : Type} (o : option A) (f : A -> B) :
  ReadOnly (Eff.member (S := S) o f).
Proof. destruct o; intros s; reflexivity. Qed.

Lemma ReadOnly_bind {A B : Type} (m : Eff S A) (k : A -> Eff S B) :
  ReadOnly m -> (forall a, ReadOnly (k a)) -> ReadOnly (Eff.bind m k).
Proof.
  intros Hm Hk s. unfold Eff.bind. specialize (Hm s).
  destruct (m s) as [s' [a | e]]; simpl in *; subst s'.
  - apply Hk.
  - reflexivity.
Qed.

Lemma Returns_ret {A : Type} (a : A) : Returns (Eff.ret (S := S) a).
Proof. intros s. now exists a. Qed.

Lemma Returns_gets {A : Type} (f : S -> A) : Returns (Eff.gets f).
Proof. intros s. now exists (f s). Qed.

Lemma Returns_member {A B : Type} (v : A) (f : A -> B) :
  Returns (Eff.member (S := S) (Some v) f).
Proof. intros s. now exists (f v). Qed.

Lemma Returns_bind {A B : Type} (m : Eff S A) (k : A -> Eff S B) :
  Returns m -> (forall a, Returns (k a)) -> Returns (Eff.bind m k).
Proof.
  intros Hm Hk s. unfold Eff.bind. destruct (Hm s) as [a Ha].
  destruct (m s) as [s' c]. simpl in Ha. subst c. apply Hk.
Qed.

Lemma Computes_gets {A : Type} (f : S -> A) : Computes (Eff.gets f) f.
Proof. intros s. reflexivity. Qed.

Lemma Computes_mapM {A B : Type}
    (f : A -> Eff S B) (g : A -> S -> B) (l : list A) :
  (forall x, Computes (f x) (g x)) ->
  Computes (Eff.mapM f l) (fun s => List.map (fun x => g x s) l).
Proof.
  intros Hf. induction l as [|x l IH]; intros s; simpl.
  - reflexivity.
  - unfold Eff.bind. rewrite Hf, IH. reflexivity.
Qed.

Lemma Computes_ReadOnly {A : Type} (m : Eff S A) (f : S -> A) :
  Computes m f -> ReadOnly m.
Proof. intros Hm s. now rewrite Hm. Qed.

Lemma Computes_Returns {A : Type} (m : Eff S A) (f : S -> A) :
  Computes m f -> Returns m.
Proof. intros Hm s. exists (f s). now rewrite Hm. Qed.
End EffFacts.

Lemma ReadOnly_closed {S : Type} : Closed (fun A => @ReadOnly S A).
Proof.
  split.
  - intros A a. apply ReadOnly_ret.
  - intros A f. apply ReadOnly_gets.
  - intros A B v f. apply ReadOnly_member.
  - intros A B m k. apply ReadOnly_bind.
Qed.

Lemma Returns_closed {S : Type} : Closed (fun A => @Returns S A).
Proof.
  split.
  - intros A a. apply Returns_ret.
  - intros A f. apply Returns_gets.
  - intros A B v f. apply Returns_member.
  - intros A B m k. apply Returns_bind.
Qed.

(** ** Properties every selector inherits from the imported functions

    A property of computations that is closed under the constructs the
    selectors are written with, and that the imported functions have, is a
    property of every selector. *)

Section Inherited.
Context {GlobalStore : Type} `{Collaborators GlobalStore}.
Variable P : forall A : Type, Eff GlobalStore A -> Prop.
Hypothesis P_closed : Closed P.
Variable MP : ModelProviders.
Hypothesis settings_ok : P _ runCurrentSettings.
Hypothesis config_ok :
  forall provider, P _ (runGetProviderConfigById provider).
Hypothesis filter_ok :
  forall card, P _ (runFilterEnabledModels card).

Lemma mapM_inherits {A B : Type} (f : A -> Eff GlobalStore B) (l : list A) :
  (forall x, P _ (f x)) -> P _ (Eff.mapM f l).
Proof.
  intros Hf. induction l as [|x l IH]; simpl.
  - apply closed_ret, P_closed.
  - apply closed_bind; [exact P_closed | apply Hf | intros y].
    apply closed_bind; [exact P_closed | apply IH | intros ys].
    apply closed_ret, P_closed.
Qed.

Ltac inherit :=
  repeat match goal with
  | |- P _ (Eff.bind _ _) => apply (closed_bind P P_closed); [| intros ?]
  | |- P _ (Eff.ret _) => apply (closed_ret P P_closed)
  | |- P _ (Eff.gets _) => apply (closed_gets P P_closed)
  | |- P _ (Eff.member (Some _) _) => apply (closed_member P P_closed)
  | |- P _ (Eff.mapM _ _) => apply mapM_inherits; intros ?
  | |- P _ (if ?c then _ else _) => destruct c
  | |- P _ (match ?o with Some _ => _ | None => _ end) => destruct o
  | |- P _ _ => solve [auto]
  end.

(** The guard [if (!config) return] protects the access
    [config.serverModelCards]. *)
Lemma serverProviderModelCards_inherits provider :
  P _ (Effectful.serverProviderModelCards provider).
Proof.
  unfold Effectful.serverProviderModelCards.
  apply (closed_bind P P_closed); [apply (closed_gets P P_closed) |].
  intros serverConfig.
  destruct (JS.optChain (GlobalServerConfig.languageModel serverConfig)
                        (fun m => m !! provider)) as [config|]; simpl.
  - apply (closed_member P P_closed).
  - apply (closed_ret P P_closed).
Qed.

Lemma remoteProviderModelCards_inherits provider :
  P _ (Effectful.remoteProviderModelCards provider).
Proof.
  unfold Effectful.remoteProviderModelCards. inherit.
Qed.

Lemma isProviderEnabled_inherits provider :
  P _ (Effectful.isProviderEnabled provider).
Proof.
  unfold Effectful.isProviderEnabled. inherit.
Qed.

Lemma mergeModels_inherits provider fallback :
  P _ (Effectful.mergeModels provider fallback).
Proof.
  pose proof serverProviderModelCards_inherits.
  pose proof remoteProviderModelCards_inherits.
  unfold Effectful.mergeModels. inherit.
Qed.

Lemma defaultModelProviderList_inherits :
  P _ (Effectful.defaultModelProviderList MP).
Proof.
  pose proof mergeModels_inherits.
  unfold Effectful.defaultModelProviderList. inherit.
Qed.

Lemma getDefaultModeProviderById_inherits provider :
  P _ (Effectful.getDefaultModeProviderById MP provider).
Proof.
  pose proof defaultModelProviderList_inherits.
  unfold Effectful.getDefaultModeProviderById. inherit.
Qed.

Lemma getDefaultEnabledModelsById_inherits provider :
  P _ (Effectful.getDefaultEnabledModelsById MP provider).
Proof.
  pose proof getDefaultModeProviderById_inherits.
  unfold Effectful.getDefaultEnabledModelsById. inherit.
Qed.

Lemma getDefaultModelCardById_inherits id :
  P _ (Effectful.getDefaultModelCardById MP id).
Proof.
  pose proof defaultModelProviderList_inherits.
  unfold Effectful.getDefaultModelCardById. inherit.
Qed.

Lemma getModelCardsById_inherits provider :
  P _ (Effectful.getModelCardsById MP provider).
Proof.
  pose proof getDefaultModeProviderById_inherits.
  unfold Effectful.getModelCardsById. inherit.
Qed.

Lemma getEnableModelsById_inherits provider :
  P _ (Effectful.getEnableModelsById provider).
Proof.
  unfold Effectful.getEnableModelsById. inherit.
Qed.

Lemma modelProviderList_inherits :
  P _ (Effectful.modelProviderList MP).
Proof.
  pose proof defaultModelProviderList_inherits.
  pose proof getModelCardsById_inherits.
  pose proof getEnableModelsById_inherits.
  pose proof isProviderEnabled_inherits.
  unfold Effectful.modelProviderList. inherit.
Qed.

Lemma modelProviderListForModelSelect_inherits :
  P _ (Effectful.modelProviderListForModelSelect MP).
Proof.
  pose proof modelProviderList_inherits.
  unfold Effectful.modelProviderListForModelSelect. inherit.
Qed.

Lemma getModelCardById_inherits id :
  P _ (Effectful.getModelCardById MP id).
Proof.
  pose proof modelProviderList_inherits.
  unfold Effectful.getModelCardById. inherit.
Qed.

Lemma isModelEnabledFunctionCall_inherits id :
  P _ (Effectful.isModelEnabledFunctionCall MP id).
Proof.
  pose proof getModelCardById_inherits.
  unfold Effectful.isModelEnabledFunctionCall. inherit.
Qed.

Lemma isModelEnabledVision_inherits id :
  P _ (Effectful.isModelEnabledVision MP id).
Proof.
  pose proof getModelCardById_inherits.
  unfold Effectful.isModelEnabledVision. inherit.
Qed.

Lemma isModelEnabledFiles_inherits id :
  P _ (Effectful.isModelEnabledFiles MP id).
Proof.
  pose proof getModelCardById_inherits.
  unfold Effectful.isModelEnabledFiles. inherit.
Qed.

Lemma isModelEnabledUpload_inherits id :
  P _ (Effectful.isModelEnabledUpload MP id).
Proof.
  pose proof isModelEnabledVision_inherits.
  pose proof isModelEnabledFiles_inherits.
  unfold Effectful.isModelEnabledUpload. inherit.
Qed.

Lemma isModelHasMaxToken_inherits id :
  P _ (Effectful.isModelHasMaxToken MP id).
Proof.
  pose proof getModelCardById_inherits.
  unfold Effectful.isModelHasMaxToken. inherit.
Qed.

Lemma modelMaxToken_inherits id :
  P _ (Effectful.modelMaxToken MP id).
Proof.
  pose proof getModelCardById_inherits.
  unfold Effectful.modelMaxToken. inherit.
Qed.
End Inherited.

(** C4: every selector of [modelProviderSelectors] is read-only.  Provided
    the functions the file imports hand back the store they were given,
    running any selector on any store leaves that store as it was. *)
Theorem selectors_read_only
    {GlobalStore : Type} `{Collaborators GlobalStore} (MP : ModelProviders) :
  ReadOnly runCurrentSettings ->
  (forall provider, ReadOnly (runGetProviderConfigById provider)) ->
  (forall card, ReadOnly (runFilterEnabledModels card)) ->
  ReadOnly (Effectful.defaultModelProviderList MP) /\
  (forall provider, ReadOnly (Effectful.getDefaultEnabledModelsById MP provider)) /\
  (forall id, ReadOnly (Effectful.getDefaultModelCardById MP id)) /\
  (forall provider, ReadOnly (Effectful.getEnableModelsById provider)) /\
  (forall id, ReadOnly (Effectful.getModelCardById MP id)) /\
  (forall provider, ReadOnly (Effectful.getModelCardsById MP provider)) /\
  (forall id, ReadOnly (Effectful.isModelEnabledFiles MP id)) /\
  (forall id, ReadOnly (Effectful.isModelEnabledFunctionCall MP id)) /\
  (forall id, ReadOnly (Effectful.isModelEnabledUpload MP id)) /\
  (forall id, ReadOnly (Effectful.isModelEnabledVision MP id)) /\
  (forall id, ReadOnly (Effectful.isModelHasMaxToken MP id)) /\
  (forall id, ReadOnly (Effectful.modelMaxToken MP id)) /\
  ReadOnly (Effectful.modelProviderList MP) /\
  ReadOnly (Effectful.modelProviderListForModelSelect MP).
Proof.
  intros Hsettings Hconfig Hfilter.
  set (P := fun A : Type => @ReadOnly GlobalStore A).
  assert (Hclosed : Closed P) by apply ReadOnly_closed.
  repeat split.
  - apply (defaultModelProviderList_inherits P Hclosed MP Hsettings).
  - apply (getDefaultEnabledModelsById_inherits P Hclosed MP Hsettings Hfilter).
  - apply (getDefaultModelCardById_inherits P Hclosed MP Hsettings).
  - apply (getEnableModelsById_inherits P Hclosed Hconfig).
  - apply (getModelCardById_inherits P Hclosed MP Hsettings Hconfig).
  - apply (getModelCardsById_inherits P Hclosed MP Hsettings Hconfig).
  - apply (isModelEnabledFiles_inherits P Hclosed MP Hsettings Hconfig).
  - apply (isModelEnabledFunctionCall_inherits P Hclosed MP Hsettings Hconfig).
  - apply (isModelEnabledUpload_inherits P Hclosed MP Hsettings Hconfig).
  - apply (isModelEnabledVision_inherits P Hclosed MP Hsettings Hconfig).
  - apply (isModelHasMaxToken_inherits P Hclosed MP Hsettings Hconfig).
  - apply (modelMaxToken_inherits P Hclosed MP Hsettings Hconfig).
  - apply (modelProviderList_inherits P Hclosed MP Hsettings Hconfig).
  - apply (modelProviderListForModelSelect_inherits P Hclosed MP Hsettings Hconfig).
Qed.

Lemma selectors_read_only_witness :
  fst (Effectful.modelProviderListForModelSelect
         Sample.sampleProviders Sample.busyStore) = Sample.busyStore.
Proof.
  apply (selectors_read_only Sample.sampleProviders).
  - intros s. reflexivity.
  - intros provider s. reflexivity.
  - intros card s. reflexivity.
Defined.

(** C6: every selector is total and never fails.  Provided the functions
    the file imports return, every selector returns a value on every store,
    whatever is absent from the server config, the settings, the provider
    configs or the cards: none raises an exception. *)
Theorem selectors_never_throw
    {GlobalStore : Type} `{Collaborators GlobalStore} (MP : ModelProviders) :
  Returns runCurrentSettings ->
  (forall provider, Returns (runGetProviderConfigById provider)) ->
  (forall card, Returns (runFilterEnabledModels card)) ->
  Returns (Effectful.defaultModelProviderList MP) /\
  (forall provider, Returns (Effectful.getDefaultEnabledModelsById MP provider)) /\
  (forall id, Returns (Effectful.getDefaultModelCardById MP id)) /\
  (forall provider, Returns (Effectful.getEnableModelsById provider)) /\
  (forall id, Returns (Effectful.getModelCardById MP id)) /\
  (forall provider, Returns (Effectful.getModelCardsById MP provider)) /\
  (forall id, Returns (Effectful.isModelEnabledFiles MP id)) /\
  (forall id, Returns (Effectful.isModelEnabledFunctionCall MP id)) /\
  (forall id, Returns (Effectful.isModelEnabledUpload MP id)) /\
  (forall id, Returns (Effectful.isModelEnabledVision MP id)) /\
  (forall id, Returns (Effectful.isModelHasMaxToken MP id)) /\
  (forall id, Returns (Effectful.modelMaxToken MP id)) /\
  Returns (Effectful.modelProviderList MP) /\
  Returns (Effectful.modelProviderListForModelSelect MP).
Proof.
  intros Hsettings Hconfig Hfilter.
  set (P := fun A : Type => @Returns GlobalStore A).
  assert (Hclosed : Closed P) by apply Returns_closed.
  repeat split.
  - apply (defaultModelProviderList_inherits P Hclosed MP Hsettings).
  - apply (getDefaultEnabledModelsById_inherits P Hclosed MP Hsettings Hfilter).
  - apply (getDefaultModelCardById_inherits P Hclosed MP Hsettings).
  - apply (getEnableModelsById_inherits P Hclosed Hconfig).
  - apply (getModelCardById_inherits P Hclosed MP Hsettings Hconfig).
  - apply (getModelCardsById_inherits P Hclosed MP Hsettings Hconfig).
  - apply (isModelEnabledFiles_inherits P Hclosed MP Hsettings Hconfig).
  - apply (isModelEnabledFunctionCall_inherits P Hclosed MP Hsettings Hconfig).
  - apply (isModelEnabledUpload_inherits P Hclosed MP Hsettings Hconfig).
  - apply (isModelEnabledVision_inherits P Hclosed MP Hsettings Hconfig).
  - apply (isModelHasMaxToken_inherits P Hclosed MP Hsettings Hconfig).
  - apply (modelMaxToken_inherits P Hclosed MP Hsettings Hconfig).
  - apply (modelProviderList_inherits P Hclosed MP Hsettings Hconfig).
  - apply (modelProviderListForModelSelect_inherits P Hclosed MP Hsettings Hconfig).
Qed.

(** A model nobody knows, on a store where nothing is configured. *)
Lemma selectors_never_throw_witness :
  exists v,
    snd (Effectful.modelMaxToken Sample.sampleProviders "unknown-model"
           Sample.emptyStore) = Normal v.
Proof.
  apply (selectors_never_throw Sample.sampleProviders).
  - intros s. eexists. reflexivity.
  - intros provider s. eexists. reflexivity.
  - intros card s. eexists. reflexivity.
Defined.

(** ** The state-passing selectors compute the pure selectors

    When the imported functions only read the store, each state-passing
    selector hands the store back and returns what the pure selector of the
    same name computes: the two readings of the source agree. *)

Lemma bind_Computes {S A B : Type}
    (m : Eff S A) (f : S -> A) (k : A -> Eff S B) (s : S) :
  Computes m f -> Eff.bind m k s = k (f s) s.
Proof. intros Hm. unfold Eff.bind. now rewrite Hm. Qed.

Section Refinement.
Context {GlobalStore : Type} `{Store GlobalStore} `{Collaborators GlobalStore}.
Variable MP : ModelProviders.
Variable filterEnabledModels : ModelProviderCard.t -> list string.
Hypothesis server_agrees : forall s, readServerConfig s = serverConfig s.
Hypothesis settings_agree : Computes runCurrentSettings currentSettings.
Hypothesis config_agrees :
  forall provider,
    Computes (runGetProviderConfigById provider)
             (getProviderConfigById provider).
Hypothesis filter_agrees :
  forall card,
    Computes (runFilterEnabledModels card)
             (fun _ => filterEnabledModels card).

Lemma serverProviderModelCards_computes provider :
  Computes (Effectful.serverProviderModelCards provider)
           (serverProviderModelCards provider).
Proof.
  intros s. unfold Effectful.serverProviderModelCards.
  rewrite (bind_Computes _ _ _ _ (Computes_gets _)), server_agrees.
  unfold serverProviderModelCards.
  now destruct (JS.optChain _ _).
Qed.

Lemma remoteProviderModelCards_computes provider :
  Computes (Effectful.remoteProviderModelCards provider)
           (remoteProviderModelCards provider).
Proof.
  intros s. unfold Effectful.remoteProviderModelCards.
  rewrite (bind_Computes _ _ _ _ settings_agree).
  unfold remoteProviderModelCards.
  now destruct (JS.optChain _ _).
Qed.

Lemma isProviderEnabled_computes provider :
  Computes (Effectful.isProviderEnabled provider)
           (isProviderEnabled provider).
Proof.
  intros s. unfold Effectful.isProviderEnabled.
  now rewrite (bind_Computes _ _ _ _ (config_agrees provider)).
Qed.

Lemma mergeModels_computes provider fallback :
  Computes (Effectful.mergeModels provider fallback)
           (fun s => mergeModels s provider fallback).
Proof.
  intros s. unfold Effectful.mergeModels.
  rewrite (bind_Computes _ _ _ _ (serverProviderModelCards_computes provider)).
  now rewrite (bind_Computes _ _ _ _ (remoteProviderModelCards_computes provider)).
Qed.

Lemma defaultModelProviderList_computes :
  Computes (Effectful.defaultModelProviderList MP)
           (defaultModelProviderList MP).
Proof.
  intros s. unfold Effectful.defaultModelProviderList.
  now rewrite !(bind_Computes _ _ _ _ (mergeModels_computes _ _)).
Qed.

Lemma getDefaultModeProviderById_computes provider :
  Computes (Effectful.getDefaultModeProviderById MP provider)
           (getDefaultModeProviderById MP provider).
Proof.
  intros s. unfold Effectful.getDefaultModeProviderById.
  now rewrite (bind_Computes _ _ _ _ defaultModelProviderList_computes).
Qed.

Lemma getDefaultEnabledModelsById_computes provider :
  Computes (Effectful.getDefaultEnabledModelsById MP provider)
           (getDefaultEnabledModelsById MP filterEnabledModels provider).
Proof.
  intros s. unfold Effectful.getDefaultEnabledModelsById.
  rewrite (bind_Computes _ _ _ _ (getDefaultModeProviderById_computes provider)).
  unfold getDefaultEnabledModelsById.
  destruct (getDefaultModeProviderById MP provider s) as [card|];
    [| reflexivity].
  now rewrite (bind_Computes _ _ _ _ (filter_agrees card)).
Qed.

Lemma getDefaultModelCardById_computes id :
  Computes (Effectful.getDefaultModelCardById MP id)
           (getDefaultModelCardById MP id).
Proof.
  intros s. unfold Effectful.getDefaultModelCardById.
  now rewrite (bind_Computes _ _ _ _ defaultModelProviderList_computes).
Qed.

Lemma getModelCardsById_computes provider :
  Computes (Effectful.getModelCardsById MP provider)
           (getModelCardsById MP provider).
Proof.
  intros s. unfold Effectful.getModelCardsById.
  rewrite (bind_Computes _ _ _ _ (getDefaultModeProviderById_computes provider)).
  now rewrite (bind_Computes _ _ _ _ (config_agrees provider)).
Qed.

Lemma getEnableModelsById_computes provider :
  Computes (Effectful.getEnableModelsById provider)
           (getEnableModelsById provider).
Proof.
  intros s. unfold Effectful.getEnableModelsById.
  rewrite (bind_Computes _ _ _ _ (config_agrees provider)).
  unfold getEnableModelsById.
  destruct (JS.optChain (getProviderConfigById provider s) _) eqn:Hmodels;
    simpl; [| reflexivity].
  rewrite (bind_Computes _ _ _ _ (config_agrees provider)).
  now rewrite Hmodels.
Qed.

Lemma modelProviderList_computes :
  Computes (Effectful.modelProviderList MP) (modelProviderList MP).
Proof.
  intros s. unfold Effectful.modelProviderList.
  rewrite (bind_Computes _ _ _ _ defaultModelProviderList_computes).
  unfold modelProviderList.
  apply (Computes_mapM _
           (fun list s =>
              ModelProviderCard.withChatModelsEnabled list
                (List.map
                   (fun model =>
                      match getEnableModelsById (ModelProviderCard.id list) s with
                      | None => model
                      | Some models =>
                          ChatModelCard.withEnabled model
                            (existsb
                               (fun m => JS.strictEq m (ChatModelCard.id model))
                               models)
                      end)
                   (getModelCardsById MP (ModelProviderCard.id list) s))
                (isProviderEnabled (ModelProviderCard.id list) s))).
  intros list s'.
  rewrite (bind_Computes _ _ _ _ (getModelCardsById_computes _)).
  assert (Hmodel : forall model,
    Computes
      (Eff.bind (Effectful.getEnableModelsById (ModelProviderCard.id list))
         (fun models =>
            match models with
            | None => Eff.ret model
            | Some models =>
                Eff.ret
                  (ChatModelCard.withEnabled model
                     (existsb
                        (fun m => JS.strictEq m (ChatModelCard.id model))
                        models))
            end))
      (fun s =>
         match getEnableModelsById (ModelProviderCard.id list) s with
         | None => model
         | Some models =>
             ChatModelCard.withEnabled model
               (existsb (fun m => JS.strictEq m (ChatModelCard.id model))
                        models)
         end)).
  { intros model s''.
    rewrite (bind_Computes _ _ _ _ (getEnableModelsById_computes _)).
    now destruct (getEnableModelsById _ s''). }
  rewrite (bind_Computes _ _ _ _ (Computes_mapM _ _ _ Hmodel)).
  now rewrite (bind_Computes _ _ _ _ (isProviderEnabled_computes _)).
Qed.

Lemma modelProviderListForModelSelect_computes :
  Computes (Effectful.modelProviderListForModelSelect MP)
           (modelProviderListForModelSelect MP).
Proof.
  intros s. unfold Effectful.modelProviderListForModelSelect.
  now rewrite (bind_Computes _ _ _ _ modelProviderList_computes).
Qed.

Lemma getModelCardById_computes id :
  Computes (Effectful.getModelCardById MP id) (getModelCardById MP id).
Proof.
  intros s. unfold Effectful.getModelCardById.
  now rewrite (bind_Computes _ _ _ _ modelProviderList_computes).
Qed.

Lemma isModelEnabledFunctionCall_computes id :
  Computes (Effectful.isModelEnabledFunctionCall MP id)
           (isModelEnabledFunctionCall MP id).
Proof.
  intros s. unfold Effectful.isModelEnabledFunctionCall.
  now rewrite (bind_Computes _ _ _ _ (getModelCardById_computes id)).
Qed.

Lemma isModelEnabledVision_computes id :
  Computes (Effectful.isModelEnabledVision MP id)
           (isModelEnabledVision MP id).
Proof.
  intros s. unfold Effectful.isModelEnabledVision.
  rewrite (bind_Computes _ _ _ _ (getModelCardById_computes id)).
  unfold isModelEnabledVision, JS.orBool.
  now destruct (JS.truthy _).
Qed.

Lemma isModelEnabledFiles_computes id :
  Computes (Effectful.isModelEnabledFiles MP id)
           (isModelEnabledFiles MP id).
Proof.
  intros s. unfold Effectful.isModelEnabledFiles.
  now rewrite (bind_Computes _ _ _ _ (getModelCardById_computes id)).
Qed.

Lemma isModelEnabledUpload_computes id :
  Computes (Effectful.isModelEnabledUpload MP id)
           (isModelEnabledUpload MP id).
Proof.
  intros s. unfold Effectful.isModelEnabledUpload.
  rewrite (bind_Computes _ _ _ _ (isModelEnabledVision_computes id)).
  unfold isModelEnabledUpload, JS.orOpt.
  destruct (isModelEnabledVision MP id s); [reflexivity |].
  apply isModelEnabledFiles_computes.
Qed.

Lemma isModelHasMaxToken_computes id :
  Computes (Effectful.isModelHasMaxToken MP id) (isModelHasMaxToken MP id).
Proof.
  intros s. unfold Effectful.isModelHasMaxToken.
  now rewrite (bind_Computes _ _ _ _ (getModelCardById_computes id)).
Qed.

Lemma modelMaxToken_computes id :
  Computes (Effectful.modelMaxToken MP id) (modelMaxToken MP id).
Proof.
  intros s. unfold Effectful.modelMaxToken.
  now rewrite (bind_Computes _ _ _ _ (getModelCardById_computes id)).
Qed.
End Refinement.

(** ** What the selectors return when nothing is configured *)

Section Unconfigured.
Context {GlobalStore : Type} `{Store GlobalStore}.
Variable MP : ModelProviders.
Variable s : GlobalStore.
Hypothesis no_server_config :
  GlobalServerConfig.languageModel (serverConfig s) = None.
Hypothesis no_settings :
  GlobalSettings.languageModel (currentSettings s) = None.
Hypothesis no_provider_config :
  forall provider, getProviderConfigById provider s = None.

Lemma unconfigured_provider (provider : string) :
  serverProviderModelCards provider s = None /\
  remoteProviderModelCards provider s = None /\
  isProviderEnabled provider s = false /\
  getEnableModelsById provider s = None /\
  userCards provider s = [].
Proof.
  unfold serverProviderModelCards, remoteProviderModelCards,
    isProviderEnabled, getEnableModelsById, userCards.
  rewrite no_server_config, no_settings, no_provider_config.
  repeat split.
Qed.

Lemma unconfigured_nothing_to_select :
  modelProviderListForModelSelect MP s = [].
Proof.
  unfold modelProviderListForModelSelect, modelProviderList.
  assert (Hoff : forall provider, isProviderEnabled provider s = false)
    by (intros provider; apply unconfigured_provider).
  induction (defaultModelProviderList MP s) as [|card cards IH];
    simpl; [reflexivity |].
  now rewrite Hoff.
Qed.

Lemma unconfigured_unknown_model (id : string) :
  getModelCardById MP id s = None ->
  isModelEnabledFunctionCall MP id s = false /\
  isModelEnabledVision MP id s = JS.includes id "vision" /\
  isModelEnabledFiles MP id s = None /\
  isModelEnabledUpload MP id s =
    (if JS.includes id "vision" then Some true else None) /\
  isModelHasMaxToken MP id s = false /\
  modelMaxToken MP id s = 0.
Proof.
  intros Hnone.
  unfold isModelEnabledUpload, isModelEnabledFunctionCall,
    isModelEnabledVision, isModelEnabledFiles, isModelHasMaxToken,
    modelMaxToken.
  rewrite Hnone. repeat split.
Qed.
End Unconfigured.

(** ** More about [uniqBy]: order and shape of the result *)

Section UniqByShape.
Context {A : Type}.
Variable f : A -> string.

(** [fresh seen x]: the key of [x] is not in [seen]. *)
Let fresh (seen : list string) (x : A) : bool :=
  negb (existsb (JS.strictEq (f x)) seen).

Lemma filter_filter_and (p q : A -> bool) (l : list A) :
  List.filter p (List.filter q l) = List.filter (fun x => q x && p x) l.
Proof.
  induction l as [|x l IH]; simpl; [reflexivity |].
  destruct (q x); simpl; [destruct (p x) |]; now rewrite IH.
Qed.

(** What [baseUniq] does with [seen] is to filter the result. *)
Lemma baseUniq_filter (seen : list string) (l : list A) :
  baseUniq f seen l = List.filter (fresh seen) (uniqBy f l).
Proof.
  unfold uniqBy. revert seen. induction l as [|value rest IH]; intros seen;
    [reflexivity |].
  change (baseUniq f [] (value :: rest))
    with (value :: baseUniq f [f value] rest).
  change (baseUniq f seen (value :: rest))
    with (if existsb (JS.strictEq (f value)) seen
          then baseUniq f seen rest
          else value :: baseUniq f (f value :: seen) rest).
  change (List.filter (fresh seen) (value :: baseUniq f [f value] rest))
    with (if negb (existsb (JS.strictEq (f value)) seen)
          then value :: List.filter (fresh seen) (baseUniq f [f value] rest)
          else List.filter (fresh seen) (baseUniq f [f value] rest)).
  rewrite (IH [f value]), filter_filter_and.
  destruct (existsb (JS.strictEq (f value)) seen) eqn:Hseen; simpl; rewrite IH.
  - apply List.filter_ext_in. intros x _. unfold fresh. simpl.
    destruct (JS.strictEq (f x) (f value)) eqn:Heq; simpl; [| reflexivity].
    apply strictEq_true in Heq. now rewrite Heq, Hseen.
  - f_equal. apply List.filter_ext_in. intros x _. unfold fresh. simpl.
    destruct (JS.strictEq (f x) (f value)); reflexivity.
Qed.

Lemma baseUniq_app (seen : list string) (a b : list A) :
  baseUniq f seen (a ++ b) =
  (baseUniq f seen a ++
   List.filter (fresh (List.map f a ++ seen)) (uniqBy f b))%list.
Proof.
  revert seen. induction a as [|value rest IH]; intros seen; simpl.
  - apply baseUniq_filter.
  - destruct (existsb (JS.strictEq (f value)) seen) eqn:Hseen; rewrite IH.
    + f_equal. apply List.filter_ext_in. intros x _. unfold fresh. simpl.
      destruct (JS.strictEq (f x) (f value)) eqn:Heq; simpl; [| reflexivity].
      apply strictEq_true in Heq. rewrite Heq.
      rewrite List.existsb_app, Hseen. now rewrite Bool.orb_true_r.
    + simpl. f_equal. f_equal. apply List.filter_ext_in. intros x _.
      unfold fresh. simpl. rewrite !List.existsb_app. simpl.
      destruct (JS.strictEq (f x) (f value)); simpl;
        [now rewrite Bool.orb_true_r | reflexivity].
Qed.

Lemma uniqBy_app (a b : list A) :
  uniqBy f (a ++ b) =
  (uniqBy f a ++
   List.filter (fun y => negb (existsb (JS.strictEq (f y)) (List.map f a)))
               (uniqBy f b))%list.
Proof.
  unfold uniqBy at 1 2. rewrite baseUniq_app. f_equal.
  apply List.filter_ext_in. intros x _. unfold fresh.
  now rewrite List.app_nil_r.
Qed.

Lemma baseUniq_distinct (seen : list string) (l : list A) :
  List.NoDup (List.map f l) ->
  (forall x, In x l -> ~ In (f x) seen) ->
  baseUniq f seen l = l.
Proof.
  revert seen. induction l as [|value rest IH]; intros seen Hnodup Hnew;
    simpl; [reflexivity |].
  inversion Hnodup as [|k ks Hk Hks]; subst.
  destruct (existsb (JS.strictEq (f value)) seen) eqn:Hseen.
  - apply existsb_strictEq in Hseen. exfalso. apply (Hnew value); [now left |].
    assumption.
  - f_equal. apply IH; [assumption |].
    intros x Hx [Heq | Hin].
    + apply Hk. rewrite Heq. now apply List.in_map.
    + apply (Hnew x); [now right | assumption].
Qed.

Lemma uniqBy_distinct (l : list A) :
  List.NoDup (List.map f l) -> uniqBy f l = l.
Proof.
  intros Hnodup. apply baseUniq_distinct; [assumption |].
  intros x _ [].
Qed.

(** In a list with distinct keys, looking a key up finds its element. *)
Lemma find_distinct (l : list A) (x : A) :
  List.NoDup (List.map f l) -> In x l ->
  List.find (fun y => JS.strictEq (f y) (f x)) l = Some x.
Proof.
  induction l as [|a l IH]; simpl; intros Hnodup Hin; [contradiction |].
  inversion Hnodup as [|k ks Hk Hks]; subst.
  destruct (JS.strictEq (f a) (f x)) eqn:Heq.
  - destruct Hin as [-> | Hin]; [reflexivity |].
    apply strictEq_true in Heq. exfalso. apply Hk. rewrite Heq.
    now apply List.in_map.
  - destruct Hin as [-> | Hin]; [| now apply IH].
    assert (JS.strictEq (f x) (f x) = true) by now apply strictEq_true.
    congruence.
Qed.

Lemma find_key_None (l : list A) (k : string) :
  List.find (fun y => JS.strictEq (f y) k) l = None <->
  ~ In k (List.map f l).
Proof.
  induction l as [|a l IH]; simpl; [tauto |].
  destruct (JS.strictEq (f a) k) eqn:Heq.
  - apply strictEq_true in Heq. split; [discriminate | intros Hn].
    exfalso. apply Hn. now left.
  - rewrite IH. split; [| tauto].
    intros Hn [He | Hin]; [| contradiction].
    apply strictEq_true in He. congruence.
Qed.

Lemma find_key_Some (l : list A) (k : string) (x : A) :
  List.find (fun y => JS.strictEq (f y) k) l = Some x ->
  In x l /\ f x = k.
Proof.
  intros Hfind. apply List.find_some in Hfind as [Hin Heq].
  apply strictEq_true in Heq. auto.
Qed.

Lemma NoDup_map_filter (q : A -> bool) (l : list A) :
  List.NoDup (List.map f l) -> List.NoDup (List.map f (List.filter q l)).
Proof.
  induction l as [|a l IH]; simpl; intros Hnodup; [constructor |].
  inversion Hnodup as [|k ks Hk Hks]; subst.
  destruct (q a); simpl; [| now apply IH].
  constructor; [| now apply IH].
  intros Hin. apply Hk. apply List.in_map_iff in Hin as (y & Hy & Hin).
  apply List.filter_In in Hin as [Hin _].
  rewrite <- Hy. now apply List.in_map.
Qed.
End UniqByShape.

(** ** Shape of the provider list *)

Section ListShape.
Context {GlobalStore : Type} `{Store GlobalStore}.
Variable MP : ModelProviders.

Lemma isProviderEnabled_config (provider : string) (s : GlobalStore) :
  isProviderEnabled provider s =
  bool_decide (providerEnabledOf provider s = Some true).
Proof.
  unfold isProviderEnabled, providerEnabledOf, JS.orBool.
  destruct (getProviderConfigById provider s) as [config|]; simpl;
    [| reflexivity].
  now destruct (GeneralModelProviderConfig.enabled config) as [[|]|].
Qed.

Lemma defaultModelProviderList_ids (s : GlobalStore) :
  List.map ModelProviderCard.id (defaultModelProviderList MP s) =
  List.map ModelProviderCard.id (builtinProviderCards MP).
Proof. reflexivity. Qed.

Lemma modelProviderList_unfold (s : GlobalStore) :
  modelProviderList MP s =
  List.map
    (fun d =>
       ModelProviderCard.withChatModelsEnabled d
         (List.map (withPickedFlag (getEnableModelsById (ModelProviderCard.id d) s))
                   (getModelCardsById MP (ModelProviderCard.id d) s))
         (isProviderEnabled (ModelProviderCard.id d) s))
    (defaultModelProviderList MP s).
Proof. reflexivity. Qed.

Lemma withPickedFlag_ids models (cards : list ChatModelCard.t) :
  List.map ChatModelCard.id (List.map (withPickedFlag models) cards) =
  List.map ChatModelCard.id cards.
Proof.
  rewrite List.map_map. apply List.map_ext. intros model.
  now destruct models.
Qed.

Lemma getEnableModelsById_config (provider : string) (s : GlobalStore) :
  getEnableModelsById provider s =
  match enabledModelsOf provider s with
  | Some picked => Some (List.filter JS.truthyString picked)
  | None => None
  end.
Proof.
  unfold getEnableModelsById, enabledModelsOf.
  destruct (getProviderConfigById provider s) as [config|]; simpl;
    [| reflexivity].
  now destruct (GeneralModelProviderConfig.enabledModels config).
Qed.

Lemma customModelCardsOf_ids_userCards (provider : string) (s : GlobalStore) :
  List.map ChatModelCard.id (userCards provider s) =
  List.map ChatModelCard.id (customModelCardsOf provider s).
Proof.
  unfold userCards, customModelCardsOf.
  destruct (getProviderConfigById provider s) as [config|]; simpl;
    [| reflexivity].
  destruct (GeneralModelProviderConfig.customModelCards config); simpl;
    [| reflexivity].
  rewrite List.map_map. reflexivity.
Qed.

(** Looking a listed provider up by its id, when the ids are distinct. *)
Lemma getDefaultModeProviderById_listed (s : GlobalStore) (d : ModelProviderCard.t) :
  List.NoDup (List.map ModelProviderCard.id (builtinProviderCards MP)) ->
  In d (defaultModelProviderList MP s) ->
  getDefaultModeProviderById MP (ModelProviderCard.id d) s = Some d.
Proof.
  intros Hnodup Hin. unfold getDefaultModeProviderById.
  apply (find_distinct ModelProviderCard.id); [| assumption].
  now rewrite defaultModelProviderList_ids.
Qed.
End ListShape.

(** X1: whatever the store holds, [modelProviderList] lists the fourteen
    built-in providers in their fixed order, each under its built-in id and
    name; a provider's own [enabled] flag is replaced by a boolean that is
    true exactly when the provider's config has [enabled] true. *)
Theorem modelProviderList_fixed_providers
    {GlobalStore : Type} `{Store GlobalStore}
    (MP : ModelProviders) (s : GlobalStore) :
  Forall2
    (fun builtin provider =>
       ModelProviderCard.id provider = ModelProviderCard.id builtin /\
       ModelProviderCard.name provider = ModelProviderCard.name builtin /\
       ModelProviderCard.enabled provider =
       Some (bool_decide
               (providerEnabledOf (ModelProviderCard.id builtin) s = Some true)))
    (builtinProviderCards MP) (modelProviderList MP s).
Proof.
  rewrite modelProviderList_unfold.
  unfold defaultModelProviderList, builtinProviderCards. simpl.
  repeat constructor; simpl; now rewrite isProviderEnabled_config.
Qed.

Lemma modelProviderList_models_distinct
    {GlobalStore : Type} `{Store GlobalStore}
    (MP : ModelProviders) (s : GlobalStore) (provider : ModelProviderCard.t) :
  In provider (modelProviderList MP s) ->
  List.NoDup (List.map ChatModelCard.id (ModelProviderCard.chatModels provider)).
Proof.
  rewrite modelProviderList_unfold. intros Hin.
  apply List.in_map_iff in Hin as (d & <- & _).
  simpl. rewrite withPickedFlag_ids. apply uniqBy_NoDup.
Qed.

(** X2: within every provider of [modelProviderList], and of
    [modelProviderListForModelSelect], the model ids are pairwise
    distinct. *)
Theorem provider_model_ids_distinct
    {GlobalStore : Type} `{Store GlobalStore}
    (MP : ModelProviders) (s : GlobalStore) :
  Forall
    (fun provider =>
       List.NoDup (List.map ChatModelCard.id
                            (ModelProviderCard.chatModels provider)))
    (modelProviderList MP s) /\
  Forall
    (fun provider =>
       List.NoDup (List.map ChatModelCard.id
                            (ModelProviderCard.chatModels provider)))
    (modelProviderListForModelSelect MP s).
Proof.
  split; apply List.Forall_forall; intros provider Hin.
  - now apply (modelProviderList_models_distinct MP s).
  - unfold modelProviderListForModelSelect in Hin.
    apply List.in_map_iff in Hin as (q & <- & Hq).
    apply List.filter_In in Hq as [Hq _]. simpl.
    apply NoDup_map_filter.
    now apply (modelProviderList_models_distinct MP s).
Qed.

(** X3: [getModelCardsById] lists the user's cards first, in their order and
    without repeated ids, and after them the built-in cards, in their order
    and without repeated ids, whose id no user card has. *)
Theorem getModelCardsById_user_cards_first
    {GlobalStore : Type} `{Store GlobalStore}
    (MP : ModelProviders) (provider : string) (s : GlobalStore) :
  getModelCardsById MP provider s =
  (uniqBy ChatModelCard.id (userCards provider s) ++
   List.filter (not_customised (customModelCardsOf provider s))
               (uniqBy ChatModelCard.id (builtinCards MP provider s)))%list.
Proof.
  unfold getModelCardsById. rewrite uniqBy_app. f_equal.
  apply List.filter_ext. intros card. unfold not_customised.
  now rewrite customModelCardsOf_ids_userCards.
Qed.

(** X4: when neither the user's cards nor the built-in cards repeat an id,
    [getModelCardsById] drops nothing but the built-in cards the user
    customised; with no custom cards it returns the built-in cards
    unchanged. *)
Theorem getModelCardsById_nothing_to_dedupe
    {GlobalStore : Type} `{Store GlobalStore}
    (MP : ModelProviders) (provider : string) (s : GlobalStore) :
  List.NoDup (List.map ChatModelCard.id (customModelCardsOf provider s)) ->
  List.NoDup (List.map ChatModelCard.id (builtinCards MP provider s)) ->
  getModelCardsById MP provider s =
  (userCards provider s ++
   List.filter (not_customised (customModelCardsOf provider s))
               (builtinCards MP provider s))%list /\
  (customModelCardsOf provider s = [] ->
   getModelCardsById MP provider s = builtinCards MP provider s).
Proof.
  intros Hcustom Hbuiltin.
  assert (Hshape : getModelCardsById MP provider s =
    (userCards provider s ++
     List.filter (not_customised (customModelCardsOf provider s))
                 (builtinCards MP provider s))%list).
  { unfold getModelCardsById. rewrite uniqBy_app.
    rewrite (uniqBy_distinct _ (userCards provider s)),
            (uniqBy_distinct _ (builtinCards MP provider s)); try assumption.
    - f_equal. apply List.filter_ext. intros card. unfold not_customised.
      now rewrite customModelCardsOf_ids_userCards.
    - now rewrite customModelCardsOf_ids_userCards. }
  split; [assumption |].
  intros Hnone. rewrite Hshape.
  assert (Huser : userCards provider s = []).
  { pose proof (customModelCardsOf_ids_userCards provider s) as Hids.
    rewrite Hnone in Hids. now destruct (userCards provider s). }
  rewrite Huser, Hnone. simpl.
  assert (Hall : forall l, List.filter (not_customised []) l = l).
  { intros l. induction l as [|b l IH]; simpl;
      [reflexivity | now rewrite IH]. }
  apply Hall.
Qed.

Lemma getModelCardsById_nothing_to_dedupe_witness :
  List.map ChatModelCard.id
    (getModelCardsById Sample.sampleProviders "openai" Sample.busyStore)
  = ["gpt-4"; "my-model"; "gpt-4-vision-preview"].
Proof.
  destruct (getModelCardsById_nothing_to_dedupe
              Sample.sampleProviders "openai" Sample.busyStore) as [Hshape _].
  - apply NoDup_ListNoDup, (bool_decide_unpack _). vm_compute. exact I.
  - apply NoDup_ListNoDup, (bool_decide_unpack _). vm_compute. exact I.
  - rewrite Hshape. reflexivity.
Defined.

(** X5: a provider id that no built-in provider has is unknown to the
    default lookups, and [getModelCardsById] then returns the user's cards
    for that id alone. *)
Theorem unknown_provider_has_only_user_cards
    {GlobalStore : Type} `{Store GlobalStore}
    (MP : ModelProviders)
    (filterEnabledModels : ModelProviderCard.t -> list string)
    (provider : string) (s : GlobalStore) :
  ~ In provider (List.map ModelProviderCard.id (builtinProviderCards MP)) ->
  getDefaultModeProviderById MP provider s = None /\
  getDefaultEnabledModelsById MP filterEnabledModels provider s = None /\
  getModelCardsById MP provider s =
  uniqBy ChatModelCard.id (userCards provider s).
Proof.
  intros Hunknown.
  assert (Hnone : getDefaultModeProviderById MP provider s = None).
  { unfold getDefaultModeProviderById.
    apply (find_key_None ModelProviderCard.id).
    now rewrite defaultModelProviderList_ids. }
  repeat split.
  - assumption.
  - unfold getDefaultEnabledModelsById. now rewrite Hnone.
  - unfold getModelCardsById, builtinCards. rewrite Hnone. simpl.
    now rewrite List.app_nil_r.
Qed.

Lemma unknown_provider_has_only_user_cards_witness :
  getModelCardsById Sample.sampleProviders "lmstudio" Sample.busyStore = [].
Proof.
  destruct (unknown_provider_has_only_user_cards
              Sample.sampleProviders Sample.sampleFilterEnabledModels
              "lmstudio" Sample.busyStore) as (_ & _ & Hcards).
  - vm_compute. intuition discriminate.
  - rewrite Hcards. reflexivity.
Defined.

(** X6: when the built-in provider ids are distinct, looking a listed
    provider up by its id gives that provider back, and its default enabled
    models are what [filterEnabledModels] makes of it. *)
Theorem listed_provider_lookup
    {GlobalStore : Type} `{Store GlobalStore}
    (MP : ModelProviders)
    (filterEnabledModels : ModelProviderCard.t -> list string)
    (s : GlobalStore) (d : ModelProviderCard.t) :
  List.NoDup (List.map ModelProviderCard.id (builtinProviderCards MP)) ->
  In d (defaultModelProviderList MP s) ->
  getDefaultModeProviderById MP (ModelProviderCard.id d) s = Some d /\
  getDefaultEnabledModelsById MP filterEnabledModels (ModelProviderCard.id d) s
  = Some (filterEnabledModels d) /\
  builtinCards MP (ModelProviderCard.id d) s = ModelProviderCard.chatModels d.
Proof.
  intros Hnodup Hin.
  pose proof (getDefaultModeProviderById_listed MP s d Hnodup Hin) as Hfound.
  repeat split.
  - assumption.
  - unfold getDefaultEnabledModelsById. now rewrite Hfound.
  - unfold builtinCards. now rewrite Hfound.
Qed.

Lemma listed_provider_lookup_witness :
  getDefaultEnabledModelsById Sample.sampleProviders
    Sample.sampleFilterEnabledModels "anthropic" Sample.busyStore
  = Some ["claude-3-opus"].
Proof.
  destruct (listed_provider_lookup
              Sample.sampleProviders Sample.sampleFilterEnabledModels
              Sample.busyStore
              (AnthropicProviderCard Sample.sampleProviders))
    as (_ & Henabled & _).
  - apply NoDup_ListNoDup, (bool_decide_unpack _). vm_compute. exact I.
  - vm_compute. tauto.
  - exact Henabled.
Defined.

(** ** Looking a model up across providers *)

Section Lookup.
Context {A B : Type}.
Variable key : B -> string.
Variable items : A -> list B.

Lemma key_in_flat_map (l : list A) (k : string) :
  In k (List.map key (List.flat_map items l)) <->
  exists a, In a l /\ In k (List.map key (items a)).
Proof.
  rewrite List.in_map_iff. split.
  - intros (b & Hk & Hb). apply List.in_flat_map in Hb as (a & Ha & Hb).
    exists a. split; [assumption |]. apply List.in_map_iff. eauto.
  - intros (a & Ha & Hk). apply List.in_map_iff in Hk as (b & Hk & Hb).
    exists b. split; [assumption |]. apply List.in_flat_map. eauto.
Qed.

(** The first group that has the key decides what is found. *)
Lemma find_first_group (before after : list A) (a : A) (k : string) :
  (forall a', In a' before -> ~ In k (List.map key (items a'))) ->
  In k (List.map key (items a)) ->
  List.find (fun b => JS.strictEq (key b) k)
            (List.flat_map items (before ++ a :: after)) =
  List.find (fun b => JS.strictEq (key b) k) (items a).
Proof.
  intros Hbefore Hhere.
  rewrite List.flat_map_app. simpl. rewrite !find_app_key.
  assert (Hnone : List.find (fun b => JS.strictEq (key b) k)
                            (List.flat_map items before) = None).
  { apply find_key_None. rewrite key_in_flat_map.
    intros (a' & Ha' & Hk). now apply (Hbefore a'). }
  rewrite Hnone.
  apply (find_key_In key) in Hhere as (b & Hb). now rewrite Hb.
Qed.
End Lookup.

(** X7: [getEnableModelsById] is undefined exactly when the provider's
    config defines no [enabledModels]; otherwise it is that list, in order,
    without its empty entries, so an empty [enabledModels] gives the empty
    list and not undefined. *)
Theorem getEnableModelsById_entries
    {GlobalStore : Type} `{Store GlobalStore}
    (provider : string) (s : GlobalStore) :
  match enabledModelsOf provider s with
  | None => getEnableModelsById provider s = None
  | Some all =>
      exists picked,
        getEnableModelsById provider s = Some picked /\
        picked = List.filter JS.truthyString all /\
        ~ In "" picked /\
        (forall m, In m picked <-> In m all /\ m <> "") /\
        (all = [] -> picked = [])
  end.
Proof.
  rewrite getEnableModelsById_config.
  destruct (enabledModelsOf provider s) as [all|]; [| reflexivity].
  exists (List.filter JS.truthyString all).
  assert (Hin : forall m, In m (List.filter JS.truthyString all) <->
                          In m all /\ m <> "").
  { intros m. rewrite List.filter_In.
    destruct m; simpl; split; intros [Hm Hne]; split;
      try assumption; try reflexivity; congruence. }
  split; [reflexivity |]. split; [reflexivity |]. split; [| split].
  - intros Hempty. apply Hin in Hempty as [_ Hne]. now apply Hne.
  - exact Hin.
  - intros ->. reflexivity.
Qed.

(** X8: [isModelEnabledVision] holds exactly when the card found for the
    id has [vision] true or the id contains ['vision'];
    [isModelEnabledUpload] is true exactly when [isModelEnabledVision] holds
    or the card found has [files] true. *)
Theorem vision_and_upload_exactly
    {GlobalStore : Type} `{Store GlobalStore}
    (MP : ModelProviders) (id : string) (s : GlobalStore) :
  (isModelEnabledVision MP id s = true <->
   (exists card, getModelCardById MP id s = Some card /\
                 ChatModelCard.vision card = Some true) \/
   has_substring id "vision") /\
  (isModelEnabledUpload MP id s = Some true <->
   isModelEnabledVision MP id s = true \/
   exists card, getModelCardById MP id s = Some card /\
                ChatModelCard.files card = Some true).
Proof.
  split.
  - unfold isModelEnabledVision, JS.orBool. rewrite <- includes_spec.
    destruct (getModelCardById MP id s) as [card|]; simpl.
    + destruct (JS.truthy (ChatModelCard.vision card)) eqn:Hv.
      * apply truthy_true in Hv. split; [eauto | reflexivity].
      * split; [now right |]. intros [(card' & [= <-] & Hv') | Hinc];
          [| assumption].
        apply truthy_true in Hv'. congruence.
    + split; [now right |]. now intros [(card & Hc & _) | Hinc].
  - unfold isModelEnabledUpload, JS.orOpt, isModelEnabledFiles.
    destruct (isModelEnabledVision MP id s).
    + split; [now left | reflexivity].
    + destruct (getModelCardById MP id s) as [card|]; simpl.
      * split; [eauto |]. intros [Hv | (card' & [= <-] & Hf)];
          [discriminate | assumption].
      * split; [discriminate |]. now intros [Hv | (card & Hc & _)].
Qed.

(** X9: [getModelCardById] finds nothing exactly when no provider of
    [modelProviderList] lists a card with the id; a card it finds has the
    id asked for and is listed by a provider. *)
Theorem getModelCardById_found_or_unknown
    {GlobalStore : Type} `{Store GlobalStore}
    (MP : ModelProviders) (id : string) (s : GlobalStore) :
  (getModelCardById MP id s = None <->
   Forall
     (fun provider =>
        ~ In id (List.map ChatModelCard.id
                          (ModelProviderCard.chatModels provider)))
     (modelProviderList MP s)) /\
  match getModelCardById MP id s with
  | Some card =>
      ChatModelCard.id card = id /\
      exists provider,
        In provider (modelProviderList MP s) /\
        In card (ModelProviderCard.chatModels provider)
  | None => True
  end.
Proof.
  unfold getModelCardById. split.
  - rewrite (find_key_None ChatModelCard.id), key_in_flat_map,
      List.Forall_forall.
    split.
    + intros Hnone provider Hin Hid. apply Hnone. eauto.
    + intros Hall (provider & Hin & Hid). now apply (Hall provider).
  - destruct (List.find _ _) as [card|] eqn:Hfind; [| exact I].
    apply (find_key_Some ChatModelCard.id) in Hfind as [Hin Hid].
    split; [assumption |].
    apply List.in_flat_map in Hin as (provider & Hp & Hc). eauto.
Qed.



(** ** What the model selector offers, end to end *)

Lemma filter_map_swap_pred {A B : Type} (p : B -> bool) (g : A -> B) (l : list A) :
  List.filter p (List.map g l) = List.map g (List.filter (fun x => p (g x)) l).
Proof.
  induction l as [|x l IH]; simpl; [reflexivity |].
  destruct (p (g x)); simpl; now rewrite IH.
Qed.

Lemma find_map_key {A : Type} (key : A -> string) (g : A -> A) (k : string) (l : list A) :
  (forall x, key (g x) = key x) ->
  List.find (fun y => JS.strictEq (key y) k) (List.map g l) =
  option_map g (List.find (fun y => JS.strictEq (key y) k) l).
Proof.
  intros Hkey. induction l as [|x l IH]; simpl; [reflexivity |].
  rewrite Hkey. now destruct (JS.strictEq (key x) k).
Qed.

Section Offered.
Context {GlobalStore : Type} `{Store GlobalStore}.
Variable MP : ModelProviders.

(** The enabled cards among those [modelProviderList] shows for a provider. *)
Lemma enabled_after_withPickedFlag
    (picked : option (list string)) (cards : list ChatModelCard.t) :
  List.filter (fun model => JS.truthy (ChatModelCard.enabled model))
              (List.map (withPickedFlag
                           (match picked with
                            | Some all => Some (List.filter JS.truthyString all)
                            | None => None
                            end))
                        cards) =
  match picked with
  | None =>
      List.filter
        (fun model => bool_decide (ChatModelCard.enabled model = Some true))
        cards
  | Some all =>
      List.map (fun model => ChatModelCard.withEnabled model true)
               (List.filter (offered all) cards)
  end.
Proof.
  destruct picked as [all|].
  - induction cards as [|model cards IH]; simpl; [reflexivity |].
    unfold offered at 1.
    destruct (existsb _ (List.filter JS.truthyString all)); simpl;
      now rewrite IH.
  - simpl. rewrite List.map_ext with (g := fun model => model);
      [| reflexivity].
    rewrite List.map_id. apply (filter_truthy ChatModelCard.enabled).
Qed.

Lemma modelProviderListForModelSelect_unfold (s : GlobalStore) :
  modelProviderListForModelSelect MP s =
  List.map
    (fun d =>
       ModelProviderCard.withChatModels
         (ModelProviderCard.withChatModelsEnabled d
            (List.map (withPickedFlag (getEnableModelsById (ModelProviderCard.id d) s))
                      (getModelCardsById MP (ModelProviderCard.id d) s))
            (isProviderEnabled (ModelProviderCard.id d) s))
         (List.filter
            (fun model => JS.truthy (ChatModelCard.enabled model))
            (List.map (withPickedFlag (getEnableModelsById (ModelProviderCard.id d) s))
                      (getModelCardsById MP (ModelProviderCard.id d) s))))
    (List.filter
       (fun d => bool_decide
                   (providerEnabledOf (ModelProviderCard.id d) s = Some true))
       (defaultModelProviderList MP s)).
Proof.
  unfold modelProviderListForModelSelect.
  rewrite modelProviderList_unfold, filter_map_swap_pred, List.map_map.
  f_equal; try reflexivity. apply List.filter_ext. intros d. simpl.
  rewrite isProviderEnabled_config. now destruct (bool_decide _).
Qed.
End Offered.

(** X11: the model selector, end to end.  It shows, in the list's order,
    exactly the providers whose config has [enabled] true.  For such a
    provider with no [enabledModels] in its config it offers the merged cards
    of [getModelCardsById] whose own [enabled] flag is true; with
    [enabledModels] it offers the merged cards whose id is a non-empty entry
    of that list, each marked enabled, whatever their own flag was. *)
Theorem model_select_offers
    {GlobalStore : Type} `{Store GlobalStore}
    (MP : ModelProviders) (s : GlobalStore) :
  Forall2
    (fun d shown =>
       ModelProviderCard.id shown = ModelProviderCard.id d /\
       ModelProviderCard.name shown = ModelProviderCard.name d /\
       ModelProviderCard.enabled shown = Some true /\
       ModelProviderCard.chatModels shown =
       match enabledModelsOf (ModelProviderCard.id d) s with
       | None =>
           List.filter
             (fun model => bool_decide (ChatModelCard.enabled model = Some true))
             (getModelCardsById MP (ModelProviderCard.id d) s)
       | Some picked =>
           List.map (fun model => ChatModelCard.withEnabled model true)
             (List.filter (offered picked)
                          (getModelCardsById MP (ModelProviderCard.id d) s))
       end)
    (List.filter
       (fun d => bool_decide
                   (providerEnabledOf (ModelProviderCard.id d) s = Some true))
       (defaultModelProviderList MP s))
    (modelProviderListForModelSelect MP s).
Proof.
  rewrite modelProviderListForModelSelect_unfold.
  apply Forall2_map_right. intros d Hd.
  apply List.filter_In in Hd as [_ Hon]. simpl.
  repeat split.
  - f_equal. rewrite isProviderEnabled_config. assumption.
  - rewrite getEnableModelsById_config. apply enabled_after_withPickedFlag.
Qed.

(** X12: the model selector is empty exactly when no built-in provider has
    [enabled] true in its config. *)
Theorem model_select_empty
    {GlobalStore : Type} `{Store GlobalStore}
    (MP : ModelProviders) (s : GlobalStore) :
  modelProviderListForModelSelect MP s = [] <->
  Forall
    (fun builtin =>
       providerEnabledOf (ModelProviderCard.id builtin) s <> Some true)
    (builtinProviderCards MP).
Proof.
  rewrite modelProviderListForModelSelect_unfold.
  set (on := fun d => bool_decide
                        (providerEnabledOf (ModelProviderCard.id d) s = Some true)).
  assert (Hids : forall P : string -> Prop,
    Forall (fun d => P (ModelProviderCard.id d)) (defaultModelProviderList MP s) <->
    Forall (fun d => P (ModelProviderCard.id d)) (builtinProviderCards MP)).
  { intros P.
    rewrite <- !(List.Forall_map ModelProviderCard.id P).
    now rewrite defaultModelProviderList_ids. }
  rewrite <- (Hids (fun id => providerEnabledOf id s <> Some true)).
  rewrite List.Forall_forall. split.
  - intros Hempty d Hd Hon.
    assert (Hin : In d (List.filter on (defaultModelProviderList MP s))).
    { apply List.filter_In. split; [assumption |].
      now apply bool_decide_eq_true. }
    destruct (List.filter on (defaultModelProviderList MP s));
      [contradiction | discriminate].
  - intros Hoff.
    destruct (List.filter on (defaultModelProviderList MP s)) as [|d rest] eqn:Hf;
      [reflexivity |].
    assert (Hin : In d (List.filter on (defaultModelProviderList MP s)))
      by (rewrite Hf; now left).
    apply List.filter_In in Hin as [Hd Hon].
    apply bool_decide_eq_true in Hon. now apply Hoff in Hd.
Qed.

(** X13: when the built-in provider ids are distinct, a model id for which
    the default lists have a card also has a card in [modelProviderList]:
    customising and picking models never makes a default model unknown. *)
Theorem default_model_stays_known
    {GlobalStore : Type} `{Store GlobalStore}
    (MP : ModelProviders) (id : string) (s : GlobalStore) :
  List.NoDup (List.map ModelProviderCard.id (builtinProviderCards MP)) ->
  (exists card, getDefaultModelCardById MP id s = Some card) ->
  exists card, getModelCardById MP id s = Some card /\
               ChatModelCard.id card = id.
Proof.
  intros Hnodup (card & Hdefault).
  unfold getDefaultModelCardById in Hdefault.
  apply (find_key_Some ChatModelCard.id) in Hdefault as [Hin Hid].
  apply List.in_flat_map in Hin as (d & Hd & Hcard).
  pose proof (getDefaultModeProviderById_listed MP s d Hnodup Hd) as Hfound.
  assert (Hmerged : exists y,
    In y (getModelCardsById MP (ModelProviderCard.id d) s) /\
    ChatModelCard.id y = id).
  { rewrite <- Hid. apply (uniqBy_keeps_keys ChatModelCard.id).
    apply List.in_or_app. right. unfold builtinCards. now rewrite Hfound. }
  destruct Hmerged as (y & Hy & Hyid).
  assert (Hknown : In id
    (List.map ChatModelCard.id
       (List.flat_map ModelProviderCard.chatModels (modelProviderList MP s)))).
  { apply key_in_flat_map. rewrite modelProviderList_unfold.
    eexists. split; [apply List.in_map; exact Hd |]. simpl.
    rewrite withPickedFlag_ids, <- Hyid. now apply List.in_map. }
  apply (find_key_In ChatModelCard.id) in Hknown as (found & Hfind).
  exists found. split; [exact Hfind |].
  now apply (find_key_Some ChatModelCard.id) in Hfind.
Qed.

Lemma default_model_stays_known_witness :
  exists card,
    getModelCardById Sample.sampleProviders "claude-3-opus" Sample.busyStore
    = Some card /\
    ChatModelCard.id card = "claude-3-opus".
Proof.
  apply (default_model_stays_known
           Sample.sampleProviders "claude-3-opus" Sample.busyStore).
  - apply NoDup_ListNoDup, (bool_decide_unpack _). vm_compute. exact I.
  - eexists. reflexivity.
Defined.

(** X14: a customised model is reported from the user's card.  When the
    first provider of [modelProviderList] that lists a model id has a
    custom card with that id, [getModelCardById] returns the first such
    custom card, flagged custom, with the user's capabilities, name and
    token limit; what the built-in card of the same id says is not
    consulted. *)
Theorem customised_model_reports_user_card
    {GlobalStore : Type} `{Store GlobalStore}
    (MP : ModelProviders) (id : string) (s : GlobalStore)
    (before after : list ModelProviderCard.t)
    (provider : ModelProviderCard.t) :
  modelProviderList MP s = (before ++ provider :: after)%list ->
  (forall earlier, In earlier before ->
     ~ In id (List.map ChatModelCard.id
                       (ModelProviderCard.chatModels earlier))) ->
  In id (List.map ChatModelCard.id
                  (customModelCardsOf (ModelProviderCard.id provider) s)) ->
  exists custom card,
    List.find (fun c => JS.strictEq (ChatModelCard.id c) id)
              (customModelCardsOf (ModelProviderCard.id provider) s)
    = Some custom /\
    getModelCardById MP id s = Some card /\
    ChatModelCard.isCustom card = Some true /\
    ChatModelCard.displayName card = ChatModelCard.displayName custom /\
    ChatModelCard.functionCall card = ChatModelCard.functionCall custom /\
    ChatModelCard.vision card = ChatModelCard.vision custom /\
    ChatModelCard.files card = ChatModelCard.files custom /\
    ChatModelCard.tokens card = ChatModelCard.tokens custom /\
    modelMaxToken MP id s = JS.orZero (ChatModelCard.tokens custom) /\
    isModelEnabledFunctionCall MP id s =
      JS.orBool (ChatModelCard.functionCall custom) false.
Proof.
  intros Hsplit Hbefore Hcustom.
  assert (Hlisted : In provider (modelProviderList MP s)).
  { rewrite Hsplit. apply List.in_or_app. right. now left. }
  pose proof (modelProviderList_models_distinct MP s provider Hlisted) as Hnodup.
  rewrite modelProviderList_unfold in Hlisted.
  apply List.in_map_iff in Hlisted as (d & Hp & _).
  assert (Hpid : ModelProviderCard.id provider = ModelProviderCard.id d)
    by now rewrite <- Hp.
  rewrite Hpid in *.
  set (customs := customModelCardsOf (ModelProviderCard.id d) s) in *.
  apply (find_key_In ChatModelCard.id) in Hcustom as (custom & Hfind).
  pose proof (find_key_Some ChatModelCard.id _ _ _ Hfind) as [_ Hcid].
  set (marked := ChatModelCard.withIsCustom custom true).
  assert (Hmerged : In marked (getModelCardsById MP (ModelProviderCard.id d) s)).
  { unfold getModelCardsById. apply uniqBy_first. rewrite find_app_key.
    rewrite userCards_custom.
    rewrite (find_map_key ChatModelCard.id); [| reflexivity].
    simpl. fold customs. rewrite Hcid, Hfind. reflexivity. }
  set (models := getEnableModelsById (ModelProviderCard.id d) s) in *.
  set (card := withPickedFlag models marked).
  assert (Hshown : In card (ModelProviderCard.chatModels provider)).
  { rewrite <- Hp. simpl. now apply List.in_map. }
  assert (Hcardid : ChatModelCard.id card = id).
  { unfold card. now destruct models. }
  assert (Hget : getModelCardById MP id s = Some card).
  { unfold getModelCardById. rewrite Hsplit.
    rewrite (find_first_group ChatModelCard.id); try assumption.
    - rewrite <- Hcardid. now apply (find_distinct ChatModelCard.id).
    - rewrite <- Hcardid. now apply List.in_map. }
  exists custom, card. split; [exact Hfind |]. split; [exact Hget |].
  unfold modelMaxToken, isModelEnabledFunctionCall. rewrite Hget. simpl.
  unfold card. destruct models; simpl; repeat split.
Qed.

(** In the example the user's [gpt-4] card has no token limit, so none is
    reported although the server's card has one. *)
Lemma customised_model_reports_user_card_witness :
  exists custom card,
    List.find (fun c => JS.strictEq (ChatModelCard.id c) "gpt-4")
              (customModelCardsOf "openai" Sample.busyStore)
    = Some custom /\
    getModelCardById Sample.sampleProviders "gpt-4" Sample.busyStore = Some card /\
    ChatModelCard.isCustom card = Some true /\
    ChatModelCard.displayName card = ChatModelCard.displayName custom /\
    ChatModelCard.functionCall card = ChatModelCard.functionCall custom /\
    ChatModelCard.vision card = ChatModelCard.vision custom /\
    ChatModelCard.files card = ChatModelCard.files custom /\
    ChatModelCard.tokens card = ChatModelCard.tokens custom /\
    modelMaxToken Sample.sampleProviders "gpt-4" Sample.busyStore
    = JS.orZero (ChatModelCard.tokens custom) /\
    isModelEnabledFunctionCall Sample.sampleProviders "gpt-4" Sample.busyStore
    = JS.orBool (ChatModelCard.functionCall custom) false.
Proof.
  apply (customised_model_reports_user_card
           Sample.sampleProviders "gpt-4" Sample.busyStore []
           (List.skipn 1 (modelProviderList Sample.sampleProviders Sample.busyStore))
           (List.hd (OpenAIProviderCard Sample.sampleProviders)
              (modelProviderList Sample.sampleProviders Sample.busyStore))).
  - reflexivity.
  - intros earlier [].
  - vm_compute. tauto.
Defined.

(** ** Exceptions of the imported functions *)

Lemma bind_Throw {S A B : Type}
    (m : Eff S A) (k : A -> Eff S B) (s s' : S) (e : string) :
  m s = (s', Throw e) -> Eff.bind m k s = (s', Throw e).
Proof. intros Hm. unfold Eff.bind. now rewrite Hm. Qed.

Lemma bind_Normal {S A B : Type}
    (m : Eff S A) (k : A -> Eff S B) (s s' : S) (a : A) :
  m s = (s', Normal a) -> Eff.bind m k s = k a s'.
Proof. intros Hm. unfold Eff.bind. now rewrite Hm. Qed.

Section Surfacing.
Context {GlobalStore : Type} `{Collaborators GlobalStore}.
Variable MP : ModelProviders.
Variables s s' : GlobalStore.
Variable e : string.
Hypothesis settings_throw : runCurrentSettings s = (s', Throw e).

Lemma serverProviderModelCards_runs provider :
  exists cards,
    Effectful.serverProviderModelCards provider s = (s, Normal cards).
Proof.
  unfold Effectful.serverProviderModelCards, Eff.bind, Eff.gets.
  destruct (JS.optChain _ _) as [config|]; simpl; eexists; reflexivity.
Qed.

Lemma mergeModels_surfaces provider fallback :
  Effectful.mergeModels provider fallback s = (s', Throw e).
Proof.
  unfold Effectful.mergeModels.
  destruct (serverProviderModelCards_runs provider) as [cards Hserver].
  rewrite (bind_Normal _ _ _ _ _ Hserver).
  apply bind_Throw. unfold Effectful.remoteProviderModelCards.
  now apply bind_Throw.
Qed.

Lemma defaultModelProviderList_surfaces :
  Effectful.defaultModelProviderList MP s = (s', Throw e).
Proof.
  unfold Effectful.defaultModelProviderList.
  apply bind_Throw, mergeModels_surfaces.
Qed.

Lemma getDefaultModeProviderById_surfaces provider :
  Effectful.getDefaultModeProviderById MP provider s = (s', Throw e).
Proof.
  unfold Effectful.getDefaultModeProviderById.
  apply bind_Throw, defaultModelProviderList_surfaces.
Qed.

Lemma modelProviderList_surfaces :
  Effectful.modelProviderList MP s = (s', Throw e).
Proof.
  unfold Effectful.modelProviderList.
  apply bind_Throw, defaultModelProviderList_surfaces.
Qed.

Lemma getModelCardById_surfaces id :
  Effectful.getModelCardById MP id s = (s', Throw e).
Proof.
  unfold Effectful.getModelCardById.
  apply bind_Throw, modelProviderList_surfaces.
Qed.
End Surfacing.

(** X15: the selectors handle no exception.  If [currentSettings] throws on
    a store, every selector that goes through [defaultModelProviderList]
    (all but [getEnableModelsById]) throws the same exception on that store
    and leaves the store as [currentSettings] left it. *)
Theorem currentSettings_exception_surfaces
    {GlobalStore : Type} `{Collaborators GlobalStore}
    (MP : ModelProviders) (s s' : GlobalStore) (e : string) :
  runCurrentSettings s = (s', Throw e) ->
  Effectful.defaultModelProviderList MP s = (s', Throw e) /\
  (forall provider,
     Effectful.getDefaultEnabledModelsById MP provider s = (s', Throw e)) /\
  (forall id, Effectful.getDefaultModelCardById MP id s = (s', Throw e)) /\
  (forall id, Effectful.getModelCardById MP id s = (s', Throw e)) /\
  (forall provider,
     Effectful.getModelCardsById MP provider s = (s', Throw e)) /\
  (forall id, Effectful.isModelEnabledFiles MP id s = (s', Throw e)) /\
  (forall id, Effectful.isModelEnabledFunctionCall MP id s = (s', Throw e)) /\
  (forall id, Effectful.isModelEnabledUpload MP id s = (s', Throw e)) /\
  (forall id, Effectful.isModelEnabledVision MP id s = (s', Throw e)) /\
  (forall id, Effectful.isModelHasMaxToken MP id s = (s', Throw e)) /\
  (forall id, Effectful.modelMaxToken MP id s = (s', Throw e)) /\
  Effectful.modelProviderList MP s = (s', Throw e) /\
  Effectful.modelProviderListForModelSelect MP s = (s', Throw e).
Proof.
  intros Hthrow.
  pose proof (defaultModelProviderList_surfaces MP s s' e Hthrow) as Hdefault.
  pose proof (getDefaultModeProviderById_surfaces MP s s' e Hthrow) as Hprovider.
  pose proof (modelProviderList_surfaces MP s s' e Hthrow) as Hlist.
  pose proof (getModelCardById_surfaces MP s s' e Hthrow) as Hcard.
  repeat split; try assumption.
  - intros provider. unfold Effectful.getDefaultEnabledModelsById.
    apply bind_Throw, Hprovider.
  - intros id. unfold Effectful.getDefaultModelCardById.
    apply bind_Throw, Hdefault.
  - intros provider. unfold Effectful.getModelCardsById.
    apply bind_Throw, Hprovider.
  - intros id. unfold Effectful.isModelEnabledFiles. apply bind_Throw, Hcard.
  - intros id. unfold Effectful.isModelEnabledFunctionCall.
    apply bind_Throw, Hcard.
  - intros id. unfold Effectful.isModelEnabledUpload, Effectful.isModelEnabledVision.
    apply bind_Throw, bind_Throw, Hcard.
  - intros id. unfold Effectful.isModelEnabledVision. apply bind_Throw, Hcard.
  - intros id. unfold Effectful.isModelHasMaxToken. apply bind_Throw, Hcard.
  - intros id. unfold Effectful.modelMaxToken. apply bind_Throw, Hcard.
  - unfold Effectful.modelProviderListForModelSelect. apply bind_Throw, Hlist.
Qed.

Lemma currentSettings_exception_surfaces_witness :
  @Effectful.modelProviderListForModelSelect _ throwingCollaborators
    Sample.sampleProviders Sample.busyStore
  = (Sample.busyStore, Throw "settings are not loaded").
Proof.
  apply (@currentSettings_exception_surfaces _ throwingCollaborators
           Sample.sampleProviders Sample.busyStore Sample.busyStore
           "settings are not loaded").
  reflexivity.
Defined.
